(** * Resume Ranker: the extraction-to-ranking pipeline of [app.py] and
    [streamlit.py]

    The repository holds two front ends over one pipeline: a Flask route
    ([app.py], function [analyze]) and a Streamlit page ([streamlit.py], the
    [run_btn] handler).  Both extract text from each uploaded file, ask a
    language model for a JSON verdict, normalise the verdict into a record
    and sort the records by score.  This development embeds both, one module
    each, over a common model of the Python built-ins they call.

    Conventions.
    - A Python [str] is a Rocq [string]; its characters are read as the code
      points U+0000..U+00FF.
    - A Python [float] is an IEEE 754 binary64 value, [SpecFloat.spec_float]
      with [prec = 53] and [emax = 1024].
    - A Python [dict] is an association list with unique keys, in insertion
      order.
    - A parsed answer is a value that [json.loads] can return: an [int] in
      it has no more digits than [int] reads.
    - What the program cannot decide itself (the PDF and DOCX readers, the
      language model, [json.loads]) is a [Variable] of the section that
      models the front end; the theorems hold for every behaviour of it.
      Each of them returns or raises; [json.loads] raises
      [json.JSONDecodeError], which the front ends catch, or something
      else ([RecursionError], [ValueError]), which they do not.
      A concrete [Json.loads] gives the closed examples their parser.
    - The prompt is a fixed text around the resume and the job description,
      so the language model is taken as a function of these two and of the
      position of the file in the batch; its answers to two files need not
      agree.
    - Not modelled: the rendering of the results (the page and the JSON
      response). *)

From Stdlib Require Import ZArith NArith List String Ascii Bool Lia.
From Stdlib Require Import Permutation Sorted DecimalString.
From Stdlib Require Import Floats.SpecFloat.
Import ListNotations.

Local Open Scope list_scope.
Local Open Scope string_scope.

(** ** Python strings *)

Module Str.

Definition code (c : ascii) : N := N_of_ascii c.

Definition between (lo hi n : N) : bool := (lo <=? n)%N && (n <=? hi)%N.

(** [str.isspace] on one character: the code points below 256 that Python
    counts as white space. *)
Definition isspace (c : ascii) : bool :=
  let n := code c in
  between 9 13 n || between 28 32 n || (n =? 133)%N || (n =? 160)%N.

(** The white space [float] strips: C's [isspace] on ASCII, and the two
    non-ASCII spaces, which [float] first turns into a blank. *)
Definition isspace_float (c : ascii) : bool :=
  let n := code c in
  between 9 13 n || (n =? 32)%N || (n =? 133)%N || (n =? 160)%N.

Definition is_ascii_digit (c : ascii) : bool := between 48 57 (code c).

(** [str.isdigit] on one character: the ASCII digits and the superscripts
    two, three and one. *)
Definition isdigit_char (c : ascii) : bool :=
  let n := code c in
  between 48 57 n || (n =? 178)%N || (n =? 179)%N || (n =? 185)%N.

Definition digit_value (c : ascii) : Z := Z.of_N (code c) - 48.

(** [str.lower] on one character. *)
Definition lower_char (c : ascii) : ascii :=
  let n := code c in
  if between 65 90 n || (between 192 222 n && negb (n =? 215)%N)
  then ascii_of_N (n + 32) else c.

Fixpoint rev_onto (s acc : string) : string :=
  match s with
  | EmptyString => acc
  | String c r => rev_onto r (String c acc)
  end.

Definition rev (s : string) : string := rev_onto s EmptyString.

Fixpoint lstrip_by (sp : ascii -> bool) (s : string) : string :=
  match s with
  | EmptyString => EmptyString
  | String c r => if sp c then lstrip_by sp r else s
  end.

Definition strip_by (sp : ascii -> bool) (s : string) : string :=
  rev (lstrip_by sp (rev (lstrip_by sp s))).

(** [s.strip()] *)
Definition strip (s : string) : string := strip_by isspace s.

Fixpoint lower (s : string) : string :=
  match s with
  | EmptyString => EmptyString
  | String c r => String (lower_char c) (lower r)
  end.

Fixpoint startswith (s p : string) : bool :=
  match p, s with
  | EmptyString, _ => true
  | String a p', String b s' => Ascii.eqb a b && startswith s' p'
  | String _ _, EmptyString => false
  end.

(** [s.endswith(p)] *)
Definition endswith (s p : string) : bool := startswith (rev s) (rev p).

(** [s.replace(old, new)] for a non-empty [old]: the occurrences are found
    from the left and do not overlap.  [skip] counts the characters of an
    occurrence that are still to be dropped. *)
Fixpoint replace_from (old new : string) (skip : nat) (s : string) : string :=
  match s with
  | EmptyString => EmptyString
  | String c r =>
      match skip with
      | S k => replace_from old new k r
      | O =>
          if startswith s old
          then new ++ replace_from old new (String.length old - 1) r
          else String c (replace_from old new 0 r)
      end
  end.

Definition replace (old new s : string) : string := replace_from old new 0 s.

Fixpoint forallb_str (p : ascii -> bool) (s : string) : bool :=
  match s with
  | EmptyString => true
  | String c r => p c && forallb_str p r
  end.

(** [s.isdigit()]: at least one character, and every one a digit. *)
Definition isdigit (s : string) : bool :=
  match s with
  | EmptyString => false
  | _ => forallb_str isdigit_char s
  end.

(** The value of a run of ASCII digits, read in base ten. *)
Fixpoint decimal_onto (acc : Z) (s : string) : Z :=
  match s with
  | EmptyString => acc
  | String c r => decimal_onto (10 * acc + digit_value c) r
  end.

(** [str(n)] for an [int]. *)
Definition of_Z (z : Z) : string := NilZero.string_of_int (Z.to_int z).

(** [sep.join(l)] *)
Fixpoint join (sep : string) (l : list string) : string :=
  match l with
  | [] => EmptyString
  | [x] => x
  | x :: r => x ++ sep ++ join sep r
  end.

(** [s[:n]] and [s[n:]] *)
Fixpoint take (n : nat) (s : string) : string :=
  match n, s with
  | S k, String c r => String c (take k r)
  | _, _ => EmptyString
  end.

Fixpoint drop (n : nat) (s : string) : string :=
  match n, s with
  | S k, String _ r => drop k r
  | _, _ => s
  end.

(** The double quote, which a literal of this file cannot hold. *)
Definition dquote : ascii := ascii_of_nat 34.

(** A JSON text written with [`] where the text has a double quote. *)
Fixpoint q (s : string) : string :=
  match s with
  | EmptyString => EmptyString
  | String c r => String (if Ascii.eqb c "`" then dquote else c) (q r)
  end.

End Str.

(** ** Exceptions and results *)

Inductive exn : Type :=
| JSONDecodeError
| TypeError
| AttributeError
| ValueError
| OverflowError
| OtherError (what : string).

Inductive result (A : Type) : Type :=
| Ok (a : A)
| Raise (e : exn).

Arguments Ok {A} a.
Arguments Raise {A} e.

(** ** Python floats *)

Module Float.

Local Open Scope string_scope.
Local Open Scope Z_scope.

Definition prec : Z := 53.
Definition emax : Z := 1024.

Definition eqb (x y : spec_float) : bool :=
  match x, y with
  | S754_zero a, S754_zero b => Bool.eqb a b
  | S754_infinity a, S754_infinity b => Bool.eqb a b
  | S754_nan, S754_nan => true
  | S754_finite a m e, S754_finite b n f =>
      Bool.eqb a b && Pos.eqb m n && Z.eqb e f
  | _, _ => false
  end.

(** The binary64 nearest to [digits * 10 ^ exp10] (ties to even), with the
    sign [neg]: what [float] makes of a decimal numeral. *)
Definition of_decimal (neg : bool) (digits exp10 : Z) : spec_float :=
  match digits with
  | Zpos m =>
      match exp10 with
      | Zneg p =>
          SFdiv prec emax (S754_finite neg m 0)
                (S754_finite false (Pos.pow 10 p) 0)
      | _ =>
          binary_normalize prec emax
            (cond_Zopp neg (Zpos m * 10 ^ exp10)) 0 neg
      end
  | _ => S754_zero neg
  end.

(** Underscores between digits (PEP 515) are dropped; anywhere else they
    make the text no number.  [prev] is the character before [s]. *)
Fixpoint drop_underscores (prev : ascii) (s : string) : option string :=
  match s with
  | EmptyString => if Ascii.eqb prev "_" then None else Some EmptyString
  | String c r =>
      if Ascii.eqb c "_" then
        if Str.is_ascii_digit prev then drop_underscores c r else None
      else if Ascii.eqb prev "_" && negb (Str.is_ascii_digit c) then None
      else option_map (String c) (drop_underscores c r)
  end.

(** The longest prefix of ASCII digits, and what follows it. *)
Fixpoint span_digits (s : string) : string * string :=
  match s with
  | EmptyString => (EmptyString, EmptyString)
  | String c r =>
      if Str.is_ascii_digit c
      then let (d, t) := span_digits r in (String c d, t)
      else (EmptyString, s)
  end.

(** The exponent part: nothing, or [e] or [E], a sign and at least one
    digit, up to the end of the text. *)
Definition exponent (s : string) : option Z :=
  match s with
  | EmptyString => Some 0
  | String c r =>
      if Ascii.eqb c "e" || Ascii.eqb c "E" then
        let (neg, r') :=
          match r with
          | String "-" t => (true, t)
          | String "+" t => (false, t)
          | _ => (false, r)
          end in
        match span_digits r' with
        | (String _ _ as d, EmptyString) =>
            Some (cond_Zopp neg (Str.decimal_onto 0 d))
        | _ => None
        end
      else None
  end.

(** An unsigned decimal numeral: digits, a point, digits (one of the two
    runs may be empty) and an exponent part. *)
Definition unsigned_decimal (neg : bool) (s : string) : option spec_float :=
  let (int_part, r) := span_digits s in
  let (frac_part, r') :=
    match r with
    | String "." t => span_digits t
    | _ => (EmptyString, r)
    end in
  match int_part ++ frac_part with
  | EmptyString => None
  | ds =>
      match exponent r' with
      | Some e =>
          Some (of_decimal neg (Str.decimal_onto 0 ds)
                  (e - Z.of_nat (String.length frac_part)))
      | None => None
      end
  end.

(** [float(s)] for a string [s]; [None] is Python's [ValueError]. *)
Definition of_string (s : string) : option spec_float :=
  match drop_underscores zero s with
  | None => None
  | Some t =>
      let u := Str.strip_by Str.isspace_float t in
      let (neg, body) :=
        match u with
        | String "-" r => (true, r)
        | String "+" r => (false, r)
        | _ => (false, u)
        end in
      let l := Str.lower body in
      if String.eqb l "inf" || String.eqb l "infinity"
      then Some (S754_infinity neg)
      else if String.eqb l "nan" then Some S754_nan
      else unsigned_decimal neg body
  end.

(** [round(x)] with one argument: the nearest integer, ties to the even
    one; it raises on a NaN and on an infinity. *)
Definition round (x : spec_float) : result Z :=
  match x with
  | S754_zero _ => Ok 0
  | S754_nan => Raise ValueError
  | S754_infinity _ => Raise OverflowError
  | S754_finite s m e =>
      Ok (cond_Zopp s
            match e with
            | Zneg p =>
                let d := Zpos (Pos.pow 2 p) in
                let q := Zpos m / d in
                match (2 * (Zpos m mod d) ?= d) with
                | Lt => q
                | Gt => q + 1
                | Eq => if Z.even q then q else q + 1
                end
            | _ => Zpos m * 2 ^ e
            end)
  end.

(** *** [repr]: the shortest decimal that reads back as the same float *)

(** The least [t], searching up from [t], with [den <= num * 10 ^ t]. *)
Fixpoint first_scale (fuel : nat) (num den t : Z) : Z :=
  match fuel with
  | O => t
  | S k => if den <=? num * 10 ^ t then t else first_scale k num den (t + 1)
  end.

(** The position of the decimal point: the [d] with
    [10 ^ (d - 1) <= num / den < 10 ^ d]. *)
Definition decimal_point (num den : Z) : Z :=
  if den <=? num
  then Z.of_nat (String.length (Str.of_Z (num / den)))
  else 1 - first_scale 400%nat num den 1.

Fixpoint rstrip_zeros_rev (s : string) : string :=
  match s with
  | String "0" r => rstrip_zeros_rev r
  | _ => s
  end.

Definition rstrip_zeros (s : string) : string :=
  Str.rev (rstrip_zeros_rev (Str.rev s)).

(** The [p]-digit decimals next to [num / den], and which of them reads
    back as [x]: the closer one if both do.  The answer is the digits
    (trailing zeros dropped) and the position of the decimal point. *)
Definition candidate (x : spec_float) (neg : bool) (num den dp : Z) (p : Z)
           (force : bool) : option (string * Z) :=
  let s := p - dp in
  let n := if 0 <=? s then num * 10 ^ s else num in
  let d := if 0 <=? s then den else den * 10 ^ (- s) in
  let lo := n / d in
  let r := n mod d in
  let back c := eqb (of_decimal neg c (- s)) x in
  let nearer :=
    match (2 * r ?= d) with
    | Lt => lo
    | Gt => lo + 1
    | Eq => if Z.even lo then lo else lo + 1
    end in
  let pick c :=
    let ds := Str.of_Z c in
    Some (rstrip_zeros ds, Z.of_nat (String.length ds) - s) in
  if force then pick nearer
  else
    match back lo, negb (r =? 0) && back (lo + 1) with
    | true, true => pick nearer
    | true, false => pick lo
    | false, true => pick (lo + 1)
    | false, false => None
    end.

Fixpoint shortest (fuel : nat) (x : spec_float) (neg : bool)
         (num den dp p : Z) : string * Z :=
  match fuel with
  | O => (EmptyString, 0)
  | S k =>
      match candidate x neg num den dp p (17 <=? p) with
      | Some a => a
      | None => shortest k x neg num den dp (p + 1)
      end
  end.

Fixpoint zeros (n : nat) : string :=
  match n with
  | O => EmptyString
  | S k => String "0" (zeros k)
  end.

(** The digits [ds] with the decimal point at [dp], as [repr] lays them
    out: plain for [-4 < dp <= 16], with an exponent otherwise. *)
Definition layout (ds : string) (dp : Z) : string :=
  let n := Z.of_nat (String.length ds) in
  if (dp <=? -4) || (16 <? dp) then
    let e := dp - 1 in
    let es := Str.of_Z (Z.abs e) in
    Str.take 1%nat ds ++ (if 1 <? n then "." ++ Str.drop 1%nat ds else EmptyString)
      ++ "e" ++ (if e <? 0 then "-" else "+")
      ++ (if Z.abs e <? 10 then "0" else EmptyString) ++ es
  else if dp <=? 0 then "0." ++ zeros (Z.to_nat (- dp)) ++ ds
  else if n <=? dp then ds ++ zeros (Z.to_nat (dp - n)) ++ ".0"
  else Str.take (Z.to_nat dp) ds ++ "." ++ Str.drop (Z.to_nat dp) ds.

(** [repr(x)], which is also [str(x)]. *)
Definition repr (x : spec_float) : string :=
  match x with
  | S754_nan => "nan"
  | S754_infinity s => if s then "-inf" else "inf"
  | S754_zero s => if s then "-0.0" else "0.0"
  | S754_finite s m e =>
      let num := match e with Zneg _ => Zpos m | _ => Zpos m * 2 ^ e end in
      let den := match e with Zneg p => Zpos (Pos.pow 2 p) | _ => 1 end in
      let dp := decimal_point num den in
      let (ds, dp') := shortest 17%nat x s num den dp 1 in
      (if s then "-" else EmptyString) ++ layout ds dp'
  end.

End Float.

(** ** Python values *)

(** What [json.loads] can return. *)
#[local] Set Warnings "-register-all".
Inductive pyval : Type :=
| PNone
| PBool (b : bool)
| PInt (z : Z)
| PFloat (x : spec_float)
| PStr (s : string)
| PList (l : list pyval)
| PDict (d : list (string * pyval)).

#[local] Set Warnings "register-all".

Definition dict : Type := list (string * pyval).

Module Dict.

(** [d.get(k)] and [k in d] *)
Fixpoint get (k : string) (d : dict) : option pyval :=
  match d with
  | [] => None
  | (k', v) :: r => if String.eqb k k' then Some v else get k r
  end.

Definition contains (k : string) (d : dict) : bool :=
  match get k d with Some _ => true | None => false end.

(** [d[k] = v]: the value is replaced where the key stands, a new key goes
    to the end. *)
Fixpoint set (k : string) (v : pyval) (d : dict) : dict :=
  match d with
  | [] => [(k, v)]
  | (k', v') :: r =>
      if String.eqb k k' then (k', v) :: r else (k', v') :: set k v r
  end.

(** [d.get(k, default)] *)
Definition get_default (k : string) (default : pyval) (d : dict) : pyval :=
  match get k d with Some v => v | None => default end.

(** [d.setdefault(k, default)], for its effect on [d]. *)
Definition setdefault (k : string) (default : pyval) (d : dict) : dict :=
  if contains k d then d else set k default d.

End Dict.

Module Py.

Definition hex_digit (n : N) : ascii :=
  ascii_of_N (if (n <? 10)%N then n + 48 else n + 87).

(** [str.isprintable] on one character. *)
Definition isprintable (c : ascii) : bool :=
  let n := Str.code c in
  negb ((n <? 32)%N || Str.between 127 160 n || (n =? 173)%N).

Fixpoint escape (quote : ascii) (s : string) : string :=
  match s with
  | EmptyString => EmptyString
  | String c r =>
      (if Ascii.eqb c "\" then "\\"
       else if Ascii.eqb c quote then String "\" (String c EmptyString)
       else if Ascii.eqb c "009" then "\t"
       else if Ascii.eqb c "010" then "\n"
       else if Ascii.eqb c "013" then "\r"
       else if isprintable c then String c EmptyString
       else "\x" ++ String (hex_digit (Str.code c / 16)%N)
                      (String (hex_digit (Str.code c mod 16)%N) EmptyString))
      ++ escape quote r
  end.

Fixpoint has_char (c : ascii) (s : string) : bool :=
  match s with
  | EmptyString => false
  | String a r => Ascii.eqb a c || has_char c r
  end.

(** [repr(s)] for a string: in single quotes, unless it holds a single
    quote and no double quote. *)
Definition repr_str (s : string) : string :=
  let quote :=
    if has_char "'" s && negb (has_char Str.dquote s)
    then Str.dquote else "'"%char in
  String quote (escape quote s) ++ String quote EmptyString.

(** [repr(v)] *)
Fixpoint repr (v : pyval) : string :=
  match v with
  | PNone => "None"
  | PBool b => if b then "True" else "False"
  | PInt z => Str.of_Z z
  | PFloat x => Float.repr x
  | PStr s => repr_str s
  | PList l => "[" ++ Str.join ", " (map repr l) ++ "]"
  | PDict d =>
      "{" ++ Str.join ", "
               (map (fun kv => repr_str (fst kv) ++ ": " ++ repr (snd kv)) d)
          ++ "}"
  end.

(** [str(v)]: a string is itself, anything else its [repr]. *)
Definition str (v : pyval) : string :=
  match v with
  | PStr s => s
  | _ => repr v
  end.

(** The most digits [int] reads from a string
    ([sys.get_int_max_str_digits()]). *)
Definition max_str_digits : N := 4300.

(** [int(s)] where [s.isdigit()] holds: [int] reads decimal digits only,
    and a superscript digit is none; nor does it read more digits than
    its limit. *)
Definition int_of_digits (s : string) : result Z :=
  if Str.forallb_str Str.is_ascii_digit s
  then if (max_str_digits <? N.of_nat (String.length s))%N
       then Raise ValueError
       else Ok (Str.decimal_onto 0 s)
  else Raise ValueError.

End Py.

(** ** The regular expression of both front ends *)

Module Re.

Fixpoint from_first_open (s : string) : option string :=
  match s with
  | EmptyString => None
  | String c r => if Ascii.eqb c "{" then Some s else from_first_open r
  end.

(** The longest prefix of [s] that ends in a closing brace. *)
Fixpoint upto_last_close (s : string) : option string :=
  match s with
  | EmptyString => None
  | String c r =>
      match upto_last_close r with
      | Some t => Some (String c t)
      | None => if Ascii.eqb c "}" then Some (String c EmptyString) else None
      end
  end.

(** [re.search(r'\{.*\}', s, re.DOTALL)] and its [group(0)]: from the
    first opening brace to the last closing brace after it. *)
Definition search_braces (s : string) : option string :=
  match from_first_open s with
  | Some t => upto_last_close t
  | None => None
  end.

End Re.

(** ** [json.loads]

    The decoder of Python's [json] module on the texts of this model: the
    literals [NaN], [Infinity] and [-Infinity] are numbers, a repeated key
    keeps its last value, a control character inside a string and anything
    after the value are errors.  A [\u] escape for a code point above U+00FF
    has no character in this model, and the text is refused. *)

Module Json.

Local Open Scope char_scope.

Definition is_ws (c : ascii) : bool :=
  Ascii.eqb c " " || Ascii.eqb c "009" || Ascii.eqb c "010"
  || Ascii.eqb c "013".

Definition skip_ws (s : string) : string := Str.lstrip_by is_ws s.

Definition hex_value (c : ascii) : option N :=
  let n := Str.code c in
  if Str.between 48 57 n then Some (n - 48)%N
  else if Str.between 97 102 n then Some (n - 87)%N
  else if Str.between 65 70 n then Some (n - 55)%N
  else None.

Definition hex4 (a b c d : ascii) : option N :=
  match hex_value a, hex_value b, hex_value c, hex_value d with
  | Some x, Some y, Some z, Some w =>
      Some (((x * 16 + y) * 16 + z) * 16 + w)%N
  | _, _, _, _ => None
  end.

Definition cons_char (c : ascii) (r : option (string * string))
  : option (string * string) :=
  match r with
  | Some (t, rest) => Some (String c t, rest)
  | None => None
  end.

(** A string after its opening quote: its characters, and the text after
    the closing quote. *)
Fixpoint scanstring (s : string) : option (string * string) :=
  match s with
  | EmptyString => None
  | String c r =>
      if Ascii.eqb c Str.dquote then Some (EmptyString, r)
      else if Ascii.eqb c "\" then
        match r with
        | String "b" t => cons_char "008" (scanstring t)
        | String "f" t => cons_char "012" (scanstring t)
        | String "n" t => cons_char "010" (scanstring t)
        | String "r" t => cons_char "013" (scanstring t)
        | String "t" t => cons_char "009" (scanstring t)
        | String "/" t => cons_char "/" (scanstring t)
        | String "\" t => cons_char "\" (scanstring t)
        | String "u" (String h1 (String h2 (String h3 (String h4 t)))) =>
            match hex4 h1 h2 h3 h4 with
            | Some n =>
                if (n <? 256)%N then cons_char (ascii_of_N n) (scanstring t)
                else None
            | None => None
            end
        | String e t =>
            if Ascii.eqb e Str.dquote
            then cons_char Str.dquote (scanstring t)
            else None
        | EmptyString => None
        end
      else if (Str.code c <? 32)%N then None
      else cons_char c (scanstring r)
  end.

(** A point and at least one digit at the head of [s], or nothing. *)
Definition fraction (s : string) : string * string :=
  match s with
  | String "." t =>
      match Float.span_digits t with
      | (String _ _ as d, r) => (String "." d, r)
      | _ => (EmptyString, s)
      end
  | _ => (EmptyString, s)
  end.

(** An [e] or [E], an optional sign and at least one digit at the head
    of [s], or nothing. *)
Definition exponent (s : string) : string * string :=
  match s with
  | String c t =>
      if Ascii.eqb c "e" || Ascii.eqb c "E" then
        let (sign, t') :=
          match t with
          | String "-" u => (String "-" EmptyString, u)
          | String "+" u => (String "+" EmptyString, u)
          | _ => (EmptyString, t)
          end in
        match Float.span_digits t' with
        | (String _ _ as d, r) => (String c (sign ++ d)%string, r)
        | _ => (EmptyString, s)
        end
      else (EmptyString, s)
  | _ => (EmptyString, s)
  end.

(** An optional minus sign, then a zero or a run of digits that starts
    with none, at the head of [s]. *)
Definition integer (s : string) : option (string * string) :=
  let (sign, t) :=
    match s with
    | String "-" u => (String "-" EmptyString, u)
    | _ => (EmptyString, s)
    end in
  match t with
  | String "0" r => Some ((sign ++ "0")%string, r)
  | String c _ =>
      if Str.is_ascii_digit c
      then let (d, r) := Float.span_digits t in Some ((sign ++ d)%string, r)
      else None
  | EmptyString => None
  end.

(** A number: an [int] when it has neither fraction nor exponent, else the
    [float] of its text.  The [int] goes through [int(text)], which raises
    [ValueError] beyond its limit of digits. *)
Definition number (s : string) : result (pyval * string) :=
  match integer s with
  | None => Raise JSONDecodeError
  | Some (i, r) =>
      let (f, r') := fraction r in
      let (e, r'') := exponent r' in
      match (f ++ e)%string with
      | EmptyString =>
          let digits := match i with String "-" d => d | _ => i end in
          match Py.int_of_digits digits with
          | Ok z =>
              Ok (PInt match i with
                       | String "-" _ => - z
                       | _ => z
                       end, r'')
          | Raise err => Raise err
          end
      | fe =>
          match Float.of_string (i ++ fe) with
          | Some x => Ok (PFloat x, r'')
          | None => Raise JSONDecodeError
          end
      end
  end.

(** One JSON value at the head of [s] and the text after it; [elements]
    and [members] read what follows an opening bracket or brace, after
    the values already read.  Each call uses up one unit of [fuel]. *)
Fixpoint value (fuel : nat) (s : string) : result (pyval * string) :=
  match fuel with
  | O => Raise JSONDecodeError
  | S k =>
      match s with
      | EmptyString => Raise JSONDecodeError
      | String c r =>
          if Ascii.eqb c Str.dquote then
            match scanstring r with
            | Some (t, r') => Ok (PStr t, r')
            | None => Raise JSONDecodeError
            end
          else if Ascii.eqb c "{" then
            match skip_ws r with
            | String "}" r' => Ok (PDict [], r')
            | r' => members k r' []
            end
          else if Ascii.eqb c "[" then
            match skip_ws r with
            | String "]" r' => Ok (PList [], r')
            | r' => elements k r' []
            end
          else if Str.startswith s "null" then Ok (PNone, Str.drop 4 s)
          else if Str.startswith s "true"
          then Ok (PBool true, Str.drop 4 s)
          else if Str.startswith s "false"
          then Ok (PBool false, Str.drop 5 s)
          else
            match number s with
            | Ok a => Ok a
            | Raise JSONDecodeError =>
                if Str.startswith s "NaN"
                then Ok (PFloat S754_nan, Str.drop 3 s)
                else if Str.startswith s "Infinity"
                then Ok (PFloat (S754_infinity false), Str.drop 8 s)
                else if Str.startswith s "-Infinity"
                then Ok (PFloat (S754_infinity true), Str.drop 9 s)
                else Raise JSONDecodeError
            | Raise err => Raise err
            end
      end
  end
with elements (fuel : nat) (s : string) (acc : list pyval)
     : result (pyval * string) :=
  match fuel with
  | O => Raise JSONDecodeError
  | S k =>
      match value k s with
      | Raise err => Raise err
      | Ok (v, r) =>
          match skip_ws r with
          | String "]" r' => Ok (PList (acc ++ [v])%list, r')
          | String "," r' => elements k (skip_ws r') (acc ++ [v])%list
          | _ => Raise JSONDecodeError
          end
      end
  end
with members (fuel : nat) (s : string) (acc : dict)
     : result (pyval * string) :=
  match fuel with
  | O => Raise JSONDecodeError
  | S k =>
      match s with
      | String c r =>
          if Ascii.eqb c Str.dquote then
            match scanstring r with
            | None => Raise JSONDecodeError
            | Some (key, r1) =>
                match skip_ws r1 with
                | String ":" r2 =>
                    match value k (skip_ws r2) with
                    | Raise err => Raise err
                    | Ok (v, r3) =>
                        match skip_ws r3 with
                        | String "}" r4 =>
                            Ok (PDict (Dict.set key v acc), r4)
                        | String "," r4 =>
                            members k (skip_ws r4) (Dict.set key v acc)
                        | _ => Raise JSONDecodeError
                        end
                    end
                | _ => Raise JSONDecodeError
                end
            end
          else Raise JSONDecodeError
      | EmptyString => Raise JSONDecodeError
      end
  end.

(** [json.loads(s)]: the value, [json.JSONDecodeError] for a text that is
    no JSON, or the [ValueError] of an integer with too many digits.  The
    fuel is enough for every text; the [RecursionError] that the decoder
    raises on a nesting deeper than the interpreter allows at the moment of
    the call is left to the [json_loads] of the front ends. *)
Definition loads (s : string) : result pyval :=
  match value (2 * String.length s + 2) (skip_ws s) with
  | Ok (v, r) =>
      match skip_ws r with
      | EmptyString => Ok v
      | _ => Raise JSONDecodeError
      end
  | Raise err => Raise err
  end.

End Json.

(** ** Effects

    What a run does besides computing its answer: the calls it makes to the
    readers and to the language model, and what it prints or shows.  A
    computation yields its trace and either a value or an exception. *)

Inductive notice : Type :=
(* app.py, printed *)
| Processing (filename : string)
| PdfError (e : exn)
| EmptyText (filename : string)
| GenerationError (e : exn)
| JsonError (filename bad : string)
| ServerError (e : exn)
(* streamlit.py, shown on the page *)
| NoFilesSelected
| NoJobDescription
| TooLarge (name : string)
| DocHint (name : string)
| Unsupported (name : string)
| NoText (name : string)
| InvalidJson (name raw : string)
| ExtractionError (e : exn)
| RequestFailed (e : exn)
| NoResults.

Inductive event : Type :=
| Extract (name : string)
| Ask (text jd : string)
| Tell (n : notice).

Definition M (A : Type) : Type := (list event * result A)%type.

Definition ret {A} (a : A) : M A := ([], Ok a).

Definition bind {A B} (m : M A) (f : A -> M B) : M B :=
  match m with
  | (t, Ok a) => let (t', r) := f a in ((t ++ t')%list, r)
  | (t, Raise e) => (t, Raise e)
  end.

Definition emit (e : event) : M unit := ([e], Ok tt).

Definition lift {A} (r : result A) : M A := ([], r).

(** [try: m except Exception as e: h e] *)
Definition catch {A} (m : M A) (h : exn -> M A) : M A :=
  match m with
  | (t, Raise e) => let (t', r) := h e in ((t ++ t')%list, r)
  | _ => m
  end.

Notation "x <- m ;; k" := (bind m (fun x => k))
  (at level 61, m at next level, right associativity).
Notation "m ;;; k" := (bind m (fun _ => k))
  (at level 61, right associativity).

Definition trace {A} (m : M A) : list event := fst m.
Definition outcome {A} (m : M A) : result A := snd m.

(** ** The ranker of both front ends *)

Module Rank.

(** [x.get('MatchPercentage', 0)] as a sort key.  Both front ends store an
    [int] under the key before they sort; the other cases never reach the
    sort. *)
Definition key (r : dict) : Z :=
  match Dict.get_default "MatchPercentage" (PInt 0) r with
  | PInt z => z
  | _ => 0
  end.

(** One step of a stable insertion from the right: [x] stood before all
    of [l], and goes before the first record whose key is not larger. *)
Fixpoint insert (x : dict) (l : list dict) : list dict :=
  match l with
  | [] => [x]
  | y :: r => if (key x <? key y)%Z then y :: insert x r else x :: y :: r
  end.

(** [results.sort(key=..., reverse=True)]: descending, and stable. *)
Fixpoint sort (l : list dict) : list dict :=
  match l with
  | [] => []
  | x :: r => insert x (sort r)
  end.

(** For the statements below: [a] may stand before [b] in a ranking, and
    the records of one score. *)
Definition descending (a b : dict) : Prop := (key b <= key a)%Z.

Definition scored (k : Z) (r : dict) : bool := (key r =? k)%Z.

End Rank.

(** ** [app.py] *)

Module App.

Record upload : Type := { filename : string; stream : list Byte.byte }.

Inductive response : Type :=
| Json200 (results : list dict)
| Json400 (error : string)
| Json500 (error : exn).

(** [text += page.extract_text() or ""] over the pages; a page is what its
    [extract_text] does. *)
Fixpoint concat_pages (pages : list (result (option string))) (text : string)
  : result string :=
  match pages with
  | [] => Ok text
  | Ok (Some t) :: r => concat_pages r (text ++ t)
  | Ok None :: r => concat_pages r (text ++ EmptyString)
  | Raise e :: _ => Raise e
  end.

(** The record appended when the answer is no JSON. *)
Definition placeholder (filename : string) : dict :=
  [ ("Name", PStr filename);
    ("MatchPercentage", PInt 0);
    ("Summary", PStr "Error parsing AI response. View Terminal for details.");
    ("GlobalMatch", PStr "N/A") ].

(** Lines 114 to 123: the body of the [try] after [json.loads].  Only a
    [dict] supports the membership test and the item assignment; any other
    value raises [TypeError] at line 114 or 115. *)
Definition standardize (data : pyval) (filename : string) : result dict :=
  match data with
  | PDict d =>
      let d1 :=
        if negb (Dict.contains "Name" d)
           || match Dict.get "Name" d with
              | Some (PStr s) => String.eqb s "Candidate Name"
              | _ => false
              end
        then Dict.set "Name" (PStr filename) d else d in
      let d2 := Dict.set "Filename" (PStr filename) d1 in
      let match_pct :=
        Str.replace "%" EmptyString
          (Py.str (Dict.get_default "MatchPercentage" (PStr "0") d2)) in
      if Str.isdigit match_pct then
        match Py.int_of_digits match_pct with
        | Ok z => Ok (Dict.set "MatchPercentage" (PInt z) d2)
        | Raise e => Raise e
        end
      else Ok (Dict.set "MatchPercentage" (PInt 0) d2)
  | _ => Raise TypeError
  end.

(** Lines 102 to 108. *)
Definition clean (ai_response : string) : string :=
  let clean_json :=
    Str.replace "```" EmptyString
      (Str.replace "```json" EmptyString ai_response) in
  match Re.search_braces clean_json with
  | Some g => g
  | None => clean_json
  end.

Section Pipeline.

(** [pdf.PdfReader(file)] and its pages. *)
Variable PdfReader : list Byte.byte -> result (list (result (option string))).
(** [model.generate_content(prompt).text] at the [i]-th file of the
    batch, for a prompt built from the resume text and the job
    description. *)
Variable generate_content : nat -> string -> string -> result string.
(** [json.loads]: the value, or the exception it raises. *)
Variable json_loads : string -> result pyval.

Definition get_gemini_response (i : nat) (input_text jd : string) : M string :=
  emit (Ask input_text jd) ;;;
  catch (lift (generate_content i input_text jd))
        (fun e => emit (Tell (GenerationError e)) ;;; ret "{}").

(** The body of the [try] of [extract_text_from_pdf]. *)
Definition read_pdf (bio : list Byte.byte) : result string :=
  match PdfReader bio with
  | Ok pages => concat_pages pages EmptyString
  | Raise e => Raise e
  end.

Definition extract_text_from_pdf (file : upload) : M string :=
  emit (Extract (filename file)) ;;;
  catch (lift (read_pdf (stream file)))
        (fun e => emit (Tell (PdfError e)) ;;; ret EmptyString).

(** The body of the [for] loop: [None] where the source says
    [continue], [Some] the record it appends. *)
Definition process (i : nat) (jd : string) (file : upload) : M (option dict) :=
  if String.eqb (filename file) EmptyString then ret None
  else
    emit (Tell (Processing (filename file))) ;;;
    text <- extract_text_from_pdf file ;;
    if String.eqb text EmptyString
    then emit (Tell (EmptyText (filename file))) ;;; ret None
    else
      ai_response <- get_gemini_response i text jd ;;
      let clean_json := clean ai_response in
      match json_loads clean_json with
      | Ok data =>
          d <- lift (standardize data (filename file)) ;; ret (Some d)
      | Raise JSONDecodeError =>
          emit (Tell (JsonError (filename file) clean_json)) ;;;
          ret (Some (placeholder (filename file)))
      | Raise e => lift (Raise e)
      end.

Fixpoint loop (i : nat) (jd : string) (files : list upload)
         (results : list dict) : M (list dict) :=
  match files with
  | [] => ret results
  | file :: rest =>
      r <- process i jd file ;;
      loop (S i) jd rest
           match r with
           | Some d => (results ++ [d])%list
           | None => results
           end
  end.

(** The route [/analyze]; [jd] is [None] when the form has no such
    field. *)
Definition analyze (jd : option string) (files : list upload) : M response :=
  match jd, files with
  | None, _ | Some EmptyString, _ | _, [] =>
      ret (Json400 "Please provide both JD and Resumes")
  | Some jd, _ =>
      catch (results <- loop 0 jd files [] ;;
             ret (Json200 (Rank.sort results)))
            (fun e => emit (Tell (ServerError e)) ;;; ret (Json500 e))
  end.

(** For the statements below: the text the extractor hands to the loop,
    the test the loop makes before it asks the model, and the records
    the files of a batch contribute, in order. *)
Definition text_of (file : upload) : string :=
  match outcome (extract_text_from_pdf file) with
  | Ok text => text
  | Raise _ => EmptyString
  end.

Definition accepts (file : upload) : bool :=
  negb (String.eqb (filename file) EmptyString)
  && negb (String.eqb (text_of file) EmptyString).

(** The answer the loop goes on with for a file: what
    [get_gemini_response] returns. *)
Definition answer (i : nat) (jd : string) (file : upload) : string :=
  match generate_content i (text_of file) jd with
  | Ok s => s
  | Raise _ => "{}"
  end.

Definition yield (i : nat) (jd : string) (file : upload) : list dict :=
  match outcome (process i jd file) with
  | Ok (Some d) => [d]
  | _ => []
  end.

Fixpoint yields (i : nat) (jd : string) (files : list upload) : list dict :=
  match files with
  | [] => []
  | file :: rest => (yield i jd file ++ yields (S i) jd rest)%list
  end.

End Pipeline.

End App.

(** ** [streamlit.py] *)

Module Streamlit.

Record uploaded : Type :=
  { name : string; size : N; data : list Byte.byte }.

(** What the page ends up showing. *)
Inductive page : Type :=
| Rejected
| NothingToShow
| Ranking (results : list dict).

Definition max_size : N := 10 * 1024 * 1024.

Definition safe_int_percent (val : pyval) : Z :=
  match val with
  | PNone => 0
  | _ =>
      let s := Str.replace "%" EmptyString (Str.strip (Py.str val)) in
      match Float.of_string s with
      | Some f =>
          match Float.round f with
          | Ok z => z
          | Raise _ => 0
          end
      | None => 0
      end
  end%Z.

Definition clean_ai_json (ai_text : string) : string :=
  match ai_text with
  | EmptyString => "{}"
  | _ =>
      let cleaned :=
        Str.replace "```" EmptyString
          (Str.replace "```json" EmptyString ai_text) in
      match Re.search_braces cleaned with
      | Some g => g
      | None => cleaned
      end
  end.

(** The record put in place of an answer that is no JSON (lines 222 to
    230); it then goes through the same backfill as a parsed answer. *)
Definition placeholder (name : string) : dict :=
  [ ("Name", PStr name);
    ("MatchPercentage", PInt 0);
    ("GlobalMatch", PStr "N/A");
    ("MarketTier", PStr EmptyString);
    ("MatchedKeywords", PList []);
    ("MissingKeywords", PList []);
    ("Summary", PStr "Error parsing AI response.") ].

(** [parsed.get("Name") in (None, "", "Candidate Name")] *)
Definition no_name (v : option pyval) : bool :=
  match v with
  | None | Some PNone => true
  | Some (PStr s) => String.eqb s EmptyString || String.eqb s "Candidate Name"
  | Some _ => false
  end.

(** The fields that lines 236 to 240 fill in, each with its default. *)
Definition defaults : list (string * pyval) :=
  [ ("GlobalMatch", PStr "N/A");
    ("MarketTier", PStr EmptyString);
    ("MatchedKeywords", PList []);
    ("MissingKeywords", PList []);
    ("Summary", PStr EmptyString) ].

(** [parsed.setdefault(k, parsed.get(k, default))] *)
Definition backfill_field (k : string) (default : pyval) (d : dict) : dict :=
  Dict.setdefault k (Dict.get_default k default d) d.

(** Lines 232 to 235 on a [dict]: the name, the file name and the score. *)
Definition identify (d : dict) (name : string) : dict :=
  let d1 :=
    if no_name (Dict.get "Name" d)
    then Dict.set "Name" (PStr name) d else d in
  let d2 := Dict.set "Filename" (PStr name) d1 in
  Dict.set "MatchPercentage"
    (PInt (safe_int_percent
             (Dict.get_default "MatchPercentage" (PInt 0) d2))) d2.

(** Lines 232 to 240.  Only a [dict] has a [get]: any other value raises
    [AttributeError] at line 232. *)
Definition backfill (parsed : pyval) (name : string) : result dict :=
  match parsed with
  | PDict d =>
      Ok (backfill_field "Summary" (PStr EmptyString)
           (backfill_field "MissingKeywords" (PList [])
             (backfill_field "MatchedKeywords" (PList [])
               (backfill_field "MarketTier" (PStr EmptyString)
                 (backfill_field "GlobalMatch" (PStr "N/A")
                   (identify d name))))))
  | _ => Raise AttributeError
  end.

Section Pipeline.

(** [PyPDF2.PdfReader(bio)] and its pages. *)
Variable PdfReader : list Byte.byte -> result (list (result (option string))).
(** [Document(bio)] and the texts of its paragraphs. *)
Variable Document : list Byte.byte -> result (list string).
(** [bio.read().decode(errors="ignore")] *)
Variable decode_ignore : list Byte.byte -> string.
(** The module-level [API_KEY]. *)
Variable API_KEY : option string.
(** [model.generate_content(prompt).text] at the [i]-th file of the
    batch, for a prompt built from the resume text and the job
    description. *)
Variable generate_content : nat -> string -> string -> result string.
(** [json.loads]: the value, or the exception it raises. *)
Variable json_loads : string -> result pyval.

Definition reported (text : result string) : M string :=
  catch (lift text)
        (fun e => emit (Tell (ExtractionError e)) ;;; ret EmptyString).

Definition extract_text_from_pdf_bytes (bio : list Byte.byte) : M string :=
  reported (App.read_pdf PdfReader bio).

(** The body of the [try] of [extract_text_from_docx_bytes]. *)
Definition read_docx (bio : list Byte.byte) : result string :=
  match Document bio with
  | Ok paragraphs => Ok (Str.join (String "010" EmptyString) paragraphs)
  | Raise e => Raise e
  end.

Definition extract_text_from_docx_bytes (bio : list Byte.byte) : M string :=
  reported (read_docx bio).

Definition extract_text_from_txt_bytes (bio : list Byte.byte) : M string :=
  reported (Ok (decode_ignore bio)).

Definition get_gemini_response (i : nat) (resume_text jd_text : string)
  : M string :=
  match API_KEY with
  | None | Some EmptyString => ret "{}"
  | Some _ =>
      emit (Ask resume_text jd_text) ;;;
      catch (lift (generate_content i resume_text jd_text))
            (fun e => emit (Tell (RequestFailed e)) ;;; ret "{}")
  end.

(** Lines 190 to 208: the text of the file by its extension, or [None]
    where the source says [continue]. *)
Definition extract (u : uploaded) : M (option string) :=
  let lower := Str.lower (name u) in
  if Str.endswith lower ".pdf" then
    emit (Extract (name u)) ;;;
    text <- extract_text_from_pdf_bytes (data u) ;; ret (Some text)
  else if Str.endswith lower ".docx" then
    emit (Extract (name u)) ;;;
    text <- extract_text_from_docx_bytes (data u) ;; ret (Some text)
  else if Str.endswith lower ".txt" then
    emit (Extract (name u)) ;;;
    text <- extract_text_from_txt_bytes (data u) ;; ret (Some text)
  else if Str.endswith lower ".doc" then
    emit (Extract (name u)) ;;;
    text <- extract_text_from_docx_bytes (data u) ;;
    match text with
    | EmptyString => emit (Tell (DocHint (name u))) ;;; ret (Some text)
    | _ => ret (Some text)
    end
  else emit (Tell (Unsupported (name u))) ;;; ret None.

Definition blank (text : string) : bool :=
  String.eqb text EmptyString || String.eqb (Str.strip text) EmptyString.

(** The body of the [for] loop: [None] where the source says
    [continue], [Some] the record it appends. *)
Definition process (i : nat) (jd : string) (u : uploaded) : M (option dict) :=
  if (max_size <? size u)%N
  then emit (Tell (TooLarge (name u))) ;;; ret None
  else
    t <- extract u ;;
    match t with
    | None => ret None
    | Some text =>
        if blank text then emit (Tell (NoText (name u))) ;;; ret None
        else
          ai_raw <- get_gemini_response i text jd ;;
          let cleaned := clean_ai_json ai_raw in
          parsed <- match json_loads cleaned with
                    | Ok v => ret v
                    | Raise JSONDecodeError =>
                        emit (Tell (InvalidJson (name u)
                                      (Str.take 2000 ai_raw))) ;;;
                        ret (PDict (placeholder (name u)))
                    | Raise e => lift (Raise e)
                    end ;;
          d <- lift (backfill parsed (name u)) ;;
          ret (Some d)
    end.

Fixpoint loop (i : nat) (jd : string) (files : list uploaded)
         (results : list dict) : M (list dict) :=
  match files with
  | [] => ret results
  | u :: rest =>
      r <- process i jd u ;;
      loop (S i) jd rest
           match r with
           | Some d => (results ++ [d])%list
           | None => results
           end
  end.

(** Lines 174 to 249: the loop over the files, and the sort. *)
Definition rank_all (jd : string) (uploaded_files : list uploaded) : M page :=
  results <- loop 0 jd uploaded_files [] ;;
  match results with
  | [] => emit (Tell NoResults) ;;; ret NothingToShow
  | _ => ret (Ranking (Rank.sort results))
  end.

(** The handler of the button (lines 167 to 249), up to the sort. *)
Definition run (jd : string) (uploaded_files : list uploaded) : M page :=
  match uploaded_files with
  | [] => emit (Tell NoFilesSelected) ;;; ret Rejected
  | _ =>
      (if blank jd then emit (Tell NoJobDescription) else ret tt) ;;;
      rank_all jd uploaded_files
  end.

(** For the statements below: the extensions the loop knows, the text
    the extractor hands to the loop, the tests the loop makes before it
    asks the model, and the records the files of a batch contribute, in
    order. *)
Definition supported (u : uploaded) : bool :=
  let lower := Str.lower (name u) in
  Str.endswith lower ".pdf" || Str.endswith lower ".docx"
  || Str.endswith lower ".txt" || Str.endswith lower ".doc".

Definition text_of (u : uploaded) : string :=
  match outcome (extract u) with
  | Ok (Some text) => text
  | _ => EmptyString
  end.

Definition accepts (u : uploaded) : bool :=
  (size u <=? max_size)%N && supported u && negb (blank (text_of u)).

(** The answer the loop goes on with for a file: what
    [get_gemini_response] returns. *)
Definition answer (i : nat) (jd : string) (u : uploaded) : string :=
  match API_KEY with
  | None | Some EmptyString => "{}"
  | Some _ =>
      match generate_content i (text_of u) jd with
      | Ok s => s
      | Raise _ => "{}"
      end
  end.

Definition yield (i : nat) (jd : string) (u : uploaded) : list dict :=
  match outcome (process i jd u) with
  | Ok (Some d) => [d]
  | _ => []
  end.

Fixpoint yields (i : nat) (jd : string) (files : list uploaded) : list dict :=
  match files with
  | [] => []
  | u :: rest => (yield i jd u ++ yields (S i) jd rest)%list
  end.

End Pipeline.

End Streamlit.

(** ** A small world for the closed examples *)

Module Example.

(** A reader that finds the given page texts in every file. *)
Definition pages (texts : list string)
  : list Byte.byte -> result (list (result (option string))) :=
  fun _ => Ok (map (fun t => Ok (Some t)) texts).

(** A model that answers the [i]-th file of the batch with the [i]-th
    reply, written with [`] for the double quote. *)
Definition replies (l : list string) : nat -> string -> string -> result string :=
  fun i _ _ => Ok (Str.q (nth i l EmptyString)).

Definition pdf (n : string) : App.upload :=
  {| App.filename := n; App.stream := [] |}.

Definition up (n : string) : Streamlit.uploaded :=
  {| Streamlit.name := n; Streamlit.size := 2048; Streamlit.data := [] |}.

(** An upload of 11 MiB. *)
Definition big (n : string) : Streamlit.uploaded :=
  {| Streamlit.name := n;
     Streamlit.size := 11 * 1024 * 1024;
     Streamlit.data := [] |}.

(** A run of [n] digits. *)
Fixpoint ones (n : nat) : string :=
  match n with
  | O => EmptyString
  | S k => String "1" (ones k)
  end.

Definition no_docx : list Byte.byte -> result (list string) :=
  fun _ => Raise (OtherError "not a Word file").

Definition no_txt : list Byte.byte -> string := fun _ => EmptyString.

(** [analyze] and the button handler in this world. *)
Definition analyze (texts replies_ : list string) (jd : option string)
           (names : list string) : M App.response :=
  App.analyze (pages texts) (replies replies_) Json.loads jd (map pdf names).

Definition run (texts replies_ : list string) (jd : string)
           (names : list string) : M Streamlit.page :=
  Streamlit.run (pages texts) no_docx no_txt (Some "key") (replies replies_)
                Json.loads jd (map up names).

End Example.

(** ** What the statements observe *)

Module Obs.

(** The calls to the language model and the runs of a reader in a trace. *)
Definition is_ask (e : event) : bool :=
  match e with Ask _ _ => true | _ => false end.

Definition is_extract (e : event) : bool :=
  match e with Extract _ => true | _ => false end.

Definition asks (t : list event) : nat := List.length (filter is_ask t).

Definition extracts (t : list event) : nat :=
  List.length (filter is_extract t).

(** What a page adds to the text: its text, or nothing. *)
Definition page_text (p : result (option string)) : string :=
  match p with
  | Ok (Some t) => t
  | _ => EmptyString
  end.

Fixpoint concat (l : list string) : string :=
  match l with
  | [] => EmptyString
  | x :: r => x ++ concat r
  end.

(** A page whose [extract_text] returns. *)
Definition page_ok (p : result (option string)) : bool :=
  match p with
  | Ok _ => true
  | Raise _ => false
  end.

(** The text of a PDF by its pages: their texts in page order, or nothing
    at all when a page fails. *)
Definition pdf_text (pages : list (result (option string))) : string :=
  if forallb page_ok pages then concat (map page_text pages)
  else EmptyString.

(** A code fence, three backquotes, somewhere in the text. *)
Fixpoint has_fence (s : string) : bool :=
  Str.startswith s "```"
  || match s with
     | EmptyString => false
     | String _ r => has_fence r
     end.

(** The fields of a record of [streamlit.py]. *)
Definition fields : list string :=
  [ "Name"; "Filename"; "MatchPercentage"; "GlobalMatch"; "MarketTier";
    "MatchedKeywords"; "MissingKeywords"; "Summary" ].

(** The keys the normalisers write to. *)
Definition written_by_app : list string :=
  [ "Name"; "Filename"; "MatchPercentage" ].

(** The record of a file whose answer is the empty object. *)
Definition app_blank_record (filename : string) : dict :=
  [ ("Name", PStr filename); ("Filename", PStr filename);
    ("MatchPercentage", PInt 0) ].

Definition streamlit_blank_record (name : string) : dict :=
  [ ("Name", PStr name); ("Filename", PStr name);
    ("MatchPercentage", PInt 0); ("GlobalMatch", PStr "N/A");
    ("MarketTier", PStr EmptyString); ("MatchedKeywords", PList []);
    ("MissingKeywords", PList []); ("Summary", PStr EmptyString) ].

(** A file name given to [app.py]. *)
Definition named (file : App.upload) : bool :=
  negb (String.eqb (App.filename file) EmptyString).

(** An API key is set. *)
Definition has_key (API_KEY : option string) : bool :=
  match API_KEY with
  | Some (String _ _) => true
  | _ => false
  end.

(** A file that [streamlit.py] hands to a reader. *)
Definition read (u : Streamlit.uploaded) : bool :=
  (Streamlit.size u <=? Streamlit.max_size)%N && Streamlit.supported u.

(** A model that fails at every request. *)
Definition unreachable : nat -> string -> string -> result string :=
  fun _ _ _ => Raise (OtherError "connection refused").

End Obs.

(** * Lemmas *)

(** ** The monad *)

Section MonadFacts.

Context {A B : Type}.

Lemma outcome_ret (a : A) : outcome (ret a) = Ok a.
Proof. reflexivity. Qed.

Lemma outcome_bind (m : M A) (f : A -> M B) :
  outcome (bind m f) =
  match outcome m with
  | Ok a => outcome (f a)
  | Raise e => Raise e
  end.
Proof.
  destruct m as [t [a | e]]; simpl; [ | reflexivity ].
  destruct (f a); reflexivity.
Qed.

Lemma trace_bind (m : M A) (f : A -> M B) :
  trace (bind m f) =
  match outcome m with
  | Ok a => (trace m ++ trace (f a))%list
  | Raise _ => trace m
  end.
Proof.
  destruct m as [t [a | e]]; simpl; [ | reflexivity ].
  destruct (f a); reflexivity.
Qed.

Lemma outcome_catch (m : M A) (h : exn -> M A) :
  outcome (catch m h) =
  match outcome m with
  | Ok a => Ok a
  | Raise e => outcome (h e)
  end.
Proof.
  destruct m as [t [a | e]]; simpl; [ reflexivity | ].
  destruct (h e); reflexivity.
Qed.

Lemma outcome_lift (r : result A) : outcome (lift r) = r.
Proof. reflexivity. Qed.

End MonadFacts.

Lemma outcome_emit (e : event) : outcome (emit e) = Ok tt.
Proof. reflexivity. Qed.

Lemma surjective_run {A} (m : M A) : m = (trace m, outcome m).
Proof. destruct m; reflexivity. Qed.

Create Rewrite HintDb run.
#[local] Hint Rewrite @outcome_bind @outcome_catch @outcome_ret @outcome_lift
  outcome_emit : run.

(** ** Dictionaries *)

Lemma get_set_same (k : string) (v : pyval) (d : dict) :
  Dict.get k (Dict.set k v d) = Some v.
Proof.
  induction d as [ | [k' v'] r IH]; simpl.
  - now rewrite String.eqb_refl.
  - destruct (String.eqb k k') eqn:E; simpl; rewrite E; auto.
Qed.

Lemma get_set_other (k k' : string) (v : pyval) (d : dict) :
  k <> k' -> Dict.get k (Dict.set k' v d) = Dict.get k d.
Proof.
  intros N. induction d as [ | [k0 v0] r IH]; simpl.
  - apply String.eqb_neq in N. now rewrite N.
  - destruct (String.eqb k' k0) eqn:E; simpl.
    + apply String.eqb_eq in E. subst k0.
      apply String.eqb_neq in N. now rewrite N.
    + now rewrite IH.
Qed.

Lemma get_setdefault_same (k : string) (v : pyval) (d : dict) :
  Dict.get k (Dict.setdefault k v d) =
  Some match Dict.get k d with Some w => w | None => v end.
Proof.
  unfold Dict.setdefault, Dict.contains.
  destruct (Dict.get k d) eqn:E; [ exact E | apply get_set_same ].
Qed.

Lemma get_setdefault_other (k k' : string) (v : pyval) (d : dict) :
  k <> k' -> Dict.get k (Dict.setdefault k' v d) = Dict.get k d.
Proof.
  intros N. unfold Dict.setdefault.
  destruct (Dict.contains k' d); [ reflexivity | now apply get_set_other ].
Qed.

Lemma get_backfill_same (k : string) (v : pyval) (d : dict) :
  Dict.get k (Streamlit.backfill_field k v d) =
  Some match Dict.get k d with Some w => w | None => v end.
Proof.
  unfold Streamlit.backfill_field, Dict.get_default.
  rewrite get_setdefault_same. now destruct (Dict.get k d).
Qed.

Lemma get_backfill_other (k k' : string) (v : pyval) (d : dict) :
  k <> k' -> Dict.get k (Streamlit.backfill_field k' v d) = Dict.get k d.
Proof. intros N. now apply get_setdefault_other. Qed.

(** Two key literals differ: decided by computing [String.eqb]. *)
Ltac keys_differ :=
  let H := fresh in intro H; apply String.eqb_eq in H; discriminate H.

(** [Dict.get] pushed through the writes of the normalisers. *)
Ltac get_through :=
  repeat first
    [ rewrite get_set_same
    | rewrite get_backfill_same
    | rewrite get_set_other by keys_differ
    | rewrite get_backfill_other by keys_differ ].

(** ** The ranker *)

Lemma insert_perm (x : dict) (l : list dict) :
  Permutation (x :: l) (Rank.insert x l).
Proof.
  induction l as [ | y r IH]; simpl; [ apply Permutation_refl | ].
  destruct (Rank.key x <? Rank.key y)%Z.
  - eapply perm_trans; [ apply perm_swap | now apply perm_skip ].
  - apply Permutation_refl.
Qed.

Lemma sort_perm (l : list dict) : Permutation l (Rank.sort l).
Proof.
  induction l as [ | x r IH]; simpl; [ constructor | ].
  eapply perm_trans; [ apply perm_skip, IH | apply insert_perm ].
Qed.

Lemma insert_sorted (x : dict) (l : list dict) :
  StronglySorted Rank.descending l -> StronglySorted Rank.descending (Rank.insert x l).
Proof.
  induction 1 as [ | y r Hr IH Hy]; simpl.
  - constructor; constructor.
  - destruct (Rank.key x <? Rank.key y)%Z eqn:E.
    + apply Z.ltb_lt in E. constructor; [ exact IH | ].
      eapply Permutation_Forall; [ apply insert_perm | ].
      constructor; [ unfold Rank.descending; lia | exact Hy ].
    + apply Z.ltb_ge in E. constructor; [ now constructor | ].
      constructor; [ exact E | ].
      eapply Forall_impl; [ | exact Hy ].
      unfold Rank.descending. intros b Hb. lia.
Qed.

Lemma sort_sorted (l : list dict) : StronglySorted Rank.descending (Rank.sort l).
Proof.
  induction l as [ | x r IH]; simpl; [ constructor | now apply insert_sorted ].
Qed.

Lemma filter_insert (k : Z) (x : dict) (l : list dict) :
  filter (Rank.scored k) (Rank.insert x l) = filter (Rank.scored k) (x :: l).
Proof.
  induction l as [ | y r IH]; [ reflexivity | ].
  cbn [Rank.insert]. destruct (Rank.key x <? Rank.key y)%Z eqn:E;
    [ | reflexivity ].
  apply Z.ltb_lt in E. cbn [filter] in *. unfold Rank.scored in *.
  destruct (Rank.key x =? k)%Z eqn:Ex, (Rank.key y =? k)%Z eqn:Ey;
    rewrite IH; try reflexivity.
  apply Z.eqb_eq in Ex, Ey. lia.
Qed.

Lemma filter_sort (k : Z) (l : list dict) :
  filter (Rank.scored k) (Rank.sort l) = filter (Rank.scored k) l.
Proof.
  induction l as [ | x r IH]; [ reflexivity | ].
  cbn [Rank.sort]. rewrite filter_insert. cbn [filter]. now rewrite IH.
Qed.


(** ** The extractors *)

Lemma concat_pages_raises (pages : list (result (option string)))
      (text : string) (e : exn) :
  In (Raise e) pages -> exists e', App.concat_pages pages text = Raise e'.
Proof.
  revert text. induction pages as [ | p r IH]; intros text H; [ destruct H | ].
  destruct H as [-> | H]; [ now exists e | ].
  destruct p as [[t | ] | e0]; simpl; eauto.
Qed.

Lemma reported_outcome (text : result string) :
  outcome (Streamlit.reported text) =
  Ok match text with Ok t => t | Raise _ => EmptyString end.
Proof.
  unfold Streamlit.reported. autorewrite with run. now destruct text.
Qed.

(** C10.  No extractor of either front end raises, whatever the reader
    does with the bytes: the outcome is a string, the text read when the
    reader succeeds and the empty string when it raises.  A reader raises
    when it refuses the file or when one page does. *)
Theorem extraction_never_raises
        (PdfReader : list Byte.byte -> result (list (result (option string))))
        (Document : list Byte.byte -> result (list string))
        (decode_ignore : list Byte.byte -> string)
        (file : App.upload) (bio : list Byte.byte) :
  outcome (App.extract_text_from_pdf PdfReader file)
  = Ok match App.read_pdf PdfReader (App.stream file) with
       | Ok text => text
       | Raise _ => EmptyString
       end
  /\ outcome (Streamlit.extract_text_from_pdf_bytes PdfReader bio)
     = Ok match App.read_pdf PdfReader bio with
          | Ok text => text
          | Raise _ => EmptyString
          end
  /\ outcome (Streamlit.extract_text_from_docx_bytes Document bio)
     = Ok match Streamlit.read_docx Document bio with
          | Ok text => text
          | Raise _ => EmptyString
          end
  /\ outcome (Streamlit.extract_text_from_txt_bytes decode_ignore bio)
     = Ok (decode_ignore bio)
  /\ (forall e, PdfReader bio = Raise e ->
        App.read_pdf PdfReader bio = Raise e)
  /\ (forall pages e, PdfReader bio = Ok pages -> In (Raise e) pages ->
        exists e', App.read_pdf PdfReader bio = Raise e').
Proof.
  split; [ | split; [ | split; [ | split; [ | split ] ] ] ].
  - unfold App.extract_text_from_pdf. autorewrite with run.
    now destruct (App.read_pdf PdfReader (App.stream file)).
  - apply reported_outcome.
  - apply reported_outcome.
  - apply reported_outcome.
  - intros e H. unfold App.read_pdf. now rewrite H.
  - intros pages e H Hin. unfold App.read_pdf. rewrite H.
    now apply concat_pages_raises with (e := e).
Qed.

(** ** The other fields of a parsed answer *)

Lemma app_standardize_keeps (d r : dict) (filename k : string) :
  App.standardize (PDict d) filename = Ok r ->
  k <> "Name" -> k <> "Filename" -> k <> "MatchPercentage" ->
  Dict.get k r = Dict.get k d.
Proof.
  intros H N1 N2 N3. unfold App.standardize in H.
  match type of H with
  | context [Dict.set "Filename" _ ?x] => set (d1 := x) in H
  end.
  assert (E1 : Dict.get k d1 = Dict.get k d).
  { subst d1. match goal with |- context [if ?c then _ else _] => destruct c end;
      [ now apply get_set_other | reflexivity ]. }
  match type of H with
  | context [Str.isdigit ?s] =>
      destruct (Str.isdigit s);
      [ destruct (Py.int_of_digits s); [ | discriminate H ] | ]
  end;
    injection H as <-; rewrite !get_set_other by assumption; exact E1.
Qed.

Lemma streamlit_backfill_ok (d : dict) (name : string) :
  exists r, Streamlit.backfill (PDict d) name = Ok r.
Proof. eexists. reflexivity. Qed.

Lemma get_identify_other (d : dict) (name k : string) :
  k <> "Name" -> k <> "Filename" -> k <> "MatchPercentage" ->
  Dict.get k (Streamlit.identify d name) = Dict.get k d.
Proof.
  intros N1 N2 N3. unfold Streamlit.identify.
  rewrite !get_set_other by assumption.
  destruct (Streamlit.no_name _); [ now apply get_set_other | reflexivity ].
Qed.

Lemma streamlit_backfill_default (d r : dict) (name k : string) (dflt : pyval) :
  In (k, dflt) Streamlit.defaults ->
  Streamlit.backfill (PDict d) name = Ok r ->
  Dict.get k r = Some match Dict.get k d with Some v => v | None => dflt end.
Proof.
  intros Hin H. unfold Streamlit.backfill in H. injection H as <-.
  unfold Streamlit.defaults in Hin. simpl in Hin.
  repeat (destruct Hin as [Hin | Hin]; [ injection Hin as <- <- | ]);
    [ .. | destruct Hin ];
    get_through; rewrite get_identify_other by keys_differ; reflexivity.
Qed.

(** In a parsed answer each of the fields GlobalMatch, MarketTier,
    MatchedKeywords, MissingKeywords and Summary keeps the value the answer
    gave it, whatever that value is.  [streamlit.py] writes the default
    where the answer has no such field; [app.py] never writes to these
    fields, so that a field the answer lacks is lacking in the record. *)
Theorem other_fields_kept_when_present
        (d : dict) (filename k : string) (dflt : pyval) :
  In (k, dflt) Streamlit.defaults ->
  (forall r, App.standardize (PDict d) filename = Ok r ->
             Dict.get k r = Dict.get k d)
  /\ (exists r, Streamlit.backfill (PDict d) filename = Ok r
                /\ Dict.get k r =
                   Some match Dict.get k d with Some v => v | None => dflt end).
Proof.
  intros Hin. split.
  - intros r H. apply app_standardize_keeps with (filename := filename);
      [ exact H | | | ];
      unfold Streamlit.defaults in Hin; simpl in Hin;
      repeat (destruct Hin as [Hin | Hin]; [ injection Hin as <- _; keys_differ | ]);
      destruct Hin.
  - destruct (streamlit_backfill_ok d filename) as [r H].
    exists r. split; [ exact H | ].
    now apply streamlit_backfill_default with (name := filename).
Qed.

(** An answer with an empty Summary and no GlobalMatch: the Summary stays
    empty in both front ends. *)
Lemma other_fields_kept_witness :
  In ("Summary", PStr EmptyString) Streamlit.defaults
  /\ (forall r,
        App.standardize
          (PDict [("Summary", PStr EmptyString); ("MatchPercentage", PInt 70)])
          "cv.pdf" = Ok r ->
        Dict.get "Summary" r = Some (PStr EmptyString))
  /\ (exists r,
        Streamlit.backfill
          (PDict [("Summary", PStr EmptyString); ("MatchPercentage", PInt 70)])
          "cv.pdf" = Ok r
        /\ Dict.get "Summary" r = Some (PStr EmptyString)).
Proof.
  assert (Hin : In ("Summary", PStr EmptyString) Streamlit.defaults)
    by (simpl; tauto).
  split; [ exact Hin | ].
  exact (other_fields_kept_when_present
           [("Summary", PStr EmptyString); ("MatchPercentage", PInt 70)]
           "cv.pdf" "Summary" (PStr EmptyString) Hin).
Defined.

(** ** One file *)

Section AppFacts.

Variable PdfReader : list Byte.byte -> result (list (result (option string))).
Variable generate_content : nat -> string -> string -> result string.
Variable json_loads : string -> result pyval.

Lemma app_extract_outcome (file : App.upload) :
  outcome (App.extract_text_from_pdf PdfReader file)
  = Ok (App.text_of PdfReader file).
Proof.
  unfold App.text_of, App.extract_text_from_pdf. autorewrite with run.
  now destruct (App.read_pdf PdfReader (App.stream file)).
Qed.

Lemma app_response_outcome (i : nat) (text jd : string) :
  outcome (App.get_gemini_response generate_content i text jd)
  = Ok match generate_content i text jd with
       | Ok s => s
       | Raise _ => "{}"
       end.
Proof.
  unfold App.get_gemini_response. autorewrite with run.
  now destruct (generate_content i text jd).
Qed.

(** What the loop body comes to, without its trace. *)
Lemma app_process_outcome (i : nat) (jd : string) (file : App.upload) :
  outcome (App.process PdfReader generate_content json_loads i jd file)
  = if App.accepts PdfReader file then
      match json_loads
              (App.clean
                 match generate_content i (App.text_of PdfReader file) jd with
                 | Ok s => s
                 | Raise _ => "{}"
                 end) with
      | Ok data =>
          match App.standardize data (App.filename file) with
          | Ok d => Ok (Some d)
          | Raise e => Raise e
          end
      | Raise JSONDecodeError =>
          Ok (Some (App.placeholder (App.filename file)))
      | Raise e => Raise e
      end
    else Ok None.
Proof.
  unfold App.process, App.accepts.
  destruct (String.eqb (App.filename file) EmptyString); [ reflexivity | ].
  autorewrite with run. rewrite app_extract_outcome.
  destruct (String.eqb (App.text_of PdfReader file) EmptyString); simpl;
    [ reflexivity | ].
  autorewrite with run. rewrite app_response_outcome.
  destruct (json_loads _) as [data | []]; autorewrite with run;
    try reflexivity.
  now destruct (App.standardize _ _).
Qed.

Lemma app_process_ok (i : nat) (jd : string) (file : App.upload)
      (r : option dict) :
  outcome (App.process PdfReader generate_content json_loads i jd file)
  = Ok r ->
  match r with
  | Some _ => App.accepts PdfReader file = true
  | None => App.accepts PdfReader file = false
  end.
Proof.
  rewrite app_process_outcome.
  destruct (App.accepts PdfReader file).
  - destruct (json_loads _) as [data | []]; try discriminate;
      [ destruct (App.standardize _ _); [ | discriminate ] | ];
      now intros [= <-].
  - now intros [= <-].
Qed.

Lemma app_yield_length (i : nat) (jd : string) (file : App.upload) :
  (forall e, outcome (App.process PdfReader generate_content json_loads
                        i jd file) <> Raise e) ->
  List.length (App.yield PdfReader generate_content json_loads i jd file)
  = if App.accepts PdfReader file then 1 else 0.
Proof.
  intros H. unfold App.yield.
  destruct (outcome (App.process PdfReader generate_content json_loads
                       i jd file)) as [r | e] eqn:E; [ | now destruct (H e) ].
  apply app_process_ok in E. destruct r; now rewrite E.
Qed.

Lemma app_loop_yields (jd : string) (files : list App.upload) :
  forall (i : nat) (acc results : list dict),
    outcome (App.loop PdfReader generate_content json_loads i jd files acc)
    = Ok results ->
    results
    = (acc ++ App.yields PdfReader generate_content json_loads i jd files)%list
    /\ List.length
         (App.yields PdfReader generate_content json_loads i jd files)
       = List.length (filter (App.accepts PdfReader) files).
Proof.
  induction files as [ | file rest IH]; intros i acc results H.
  - simpl in *. injection H as <-. now rewrite app_nil_r.
  - cbn [App.loop] in H. rewrite outcome_bind in H.
    cbn [App.yields filter]. unfold App.yield.
    destruct (outcome (App.process PdfReader generate_content json_loads
                         i jd file)) as [r | e] eqn:E; [ | discriminate H ].
    apply IH in H. destruct H as [-> HL].
    apply app_process_ok in E. destruct r; rewrite E.
    + split; [ now rewrite <- app_assoc | simpl; now rewrite HL ].
    + split; [ reflexivity | exact HL ].
Qed.

End AppFacts.

Section StreamlitFacts.

Variable PdfReader : list Byte.byte -> result (list (result (option string))).
Variable Document : list Byte.byte -> result (list string).
Variable decode_ignore : list Byte.byte -> string.
Variable API_KEY : option string.
Variable generate_content : nat -> string -> string -> result string.
Variable json_loads : string -> result pyval.

#[local] Abbreviation process :=
  (Streamlit.process PdfReader Document decode_ignore API_KEY
                     generate_content json_loads).
#[local] Abbreviation accepts := (Streamlit.accepts PdfReader Document decode_ignore).
#[local] Abbreviation text_of := (Streamlit.text_of PdfReader Document decode_ignore).
#[local] Abbreviation extract := (Streamlit.extract PdfReader Document decode_ignore).

Lemma streamlit_extract_outcome (u : Streamlit.uploaded) :
  outcome (extract u)
  = Ok (if Streamlit.supported u then Some (text_of u) else None).
Proof.
  unfold Streamlit.text_of, Streamlit.supported, Streamlit.extract,
    Streamlit.extract_text_from_pdf_bytes,
    Streamlit.extract_text_from_docx_bytes,
    Streamlit.extract_text_from_txt_bytes.
  destruct (Str.endswith _ ".pdf");
    [ autorewrite with run; rewrite reported_outcome; reflexivity | ].
  destruct (Str.endswith _ ".docx");
    [ autorewrite with run; rewrite reported_outcome; reflexivity | ].
  destruct (Str.endswith _ ".txt");
    [ autorewrite with run; rewrite reported_outcome; reflexivity | ].
  destruct (Str.endswith _ ".doc"); [ | reflexivity ].
  autorewrite with run. rewrite reported_outcome.
  now destruct (match Streamlit.read_docx Document (Streamlit.data u) with
                | Ok t => t
                | Raise _ => EmptyString
                end).
Qed.

(** The answer the loop works on: "{}" without a key or when the request
    fails. *)
Lemma streamlit_response_outcome (i : nat) (text jd : string) :
  outcome (Streamlit.get_gemini_response API_KEY generate_content i text jd)
  = Ok match API_KEY with
       | None | Some EmptyString => "{}"
       | Some _ =>
           match generate_content i text jd with
           | Ok s => s
           | Raise _ => "{}"
           end
       end.
Proof.
  unfold Streamlit.get_gemini_response.
  destruct API_KEY as [[ | c k] | ]; [ reflexivity | | reflexivity ].
  autorewrite with run. now destruct (generate_content i text jd).
Qed.

(** What the loop body comes to, without its trace. *)
Lemma streamlit_process_outcome (i : nat) (jd : string)
      (u : Streamlit.uploaded) :
  outcome (process i jd u)
  = if accepts u then
      match
        match json_loads
                (Streamlit.clean_ai_json
                   match API_KEY with
                   | None | Some EmptyString => "{}"
                   | Some _ =>
                       match generate_content i (text_of u) jd with
                       | Ok s => s
                       | Raise _ => "{}"
                       end
                   end) with
        | Ok v => Streamlit.backfill v (Streamlit.name u)
        | Raise JSONDecodeError =>
            Streamlit.backfill
              (PDict (Streamlit.placeholder (Streamlit.name u)))
              (Streamlit.name u)
        | Raise e => Raise e
        end
      with
      | Ok d => Ok (Some d)
      | Raise e => Raise e
      end
    else Ok None.
Proof.
  unfold Streamlit.process, Streamlit.accepts.
  rewrite N.leb_antisym.
  destruct (Streamlit.max_size <? Streamlit.size u)%N; [ reflexivity | ].
  autorewrite with run. rewrite streamlit_extract_outcome.
  destruct (Streamlit.supported u); [ | reflexivity ].
  destruct (Streamlit.blank (text_of u)); [ reflexivity | ].
  autorewrite with run. rewrite streamlit_response_outcome.
  destruct (json_loads _) as [v | []]; autorewrite with run;
    try reflexivity; now destruct (Streamlit.backfill _ _).
Qed.

Lemma streamlit_process_ok (i : nat) (jd : string) (u : Streamlit.uploaded)
      (r : option dict) :
  outcome (process i jd u) = Ok r ->
  match r with
  | Some _ => accepts u = true
  | None => accepts u = false
  end.
Proof.
  rewrite streamlit_process_outcome.
  destruct (accepts u).
  - match goal with
    | |- match ?x with _ => _ end = _ -> _ => destruct x; [ | discriminate ]
    end.
    now intros [= <-].
  - now intros [= <-].
Qed.

Lemma streamlit_yield_length (i : nat) (jd : string) (u : Streamlit.uploaded) :
  (forall e, outcome (process i jd u) <> Raise e) ->
  List.length (Streamlit.yield PdfReader Document decode_ignore API_KEY
                               generate_content json_loads i jd u)
  = if accepts u then 1 else 0.
Proof.
  intros H. unfold Streamlit.yield.
  destruct (outcome (process i jd u)) as [r | e] eqn:E;
    [ | now destruct (H e) ].
  apply streamlit_process_ok in E. destruct r; now rewrite E.
Qed.

Lemma streamlit_loop_yields (jd : string) (files : list Streamlit.uploaded) :
  forall (i : nat) (acc results : list dict),
    outcome (Streamlit.loop PdfReader Document decode_ignore API_KEY
                            generate_content json_loads i jd files acc)
    = Ok results ->
    results
    = (acc ++ Streamlit.yields PdfReader Document decode_ignore API_KEY
                               generate_content json_loads i jd files)%list
    /\ List.length
         (Streamlit.yields PdfReader Document decode_ignore API_KEY
                           generate_content json_loads i jd files)
       = List.length (filter accepts files).
Proof.
  induction files as [ | u rest IH]; intros i acc results H.
  - simpl in *. injection H as <-. now rewrite app_nil_r.
  - cbn [Streamlit.loop] in H. rewrite outcome_bind in H.
    cbn [Streamlit.yields filter]. unfold Streamlit.yield.
    destruct (outcome (process i jd u)) as [r | e] eqn:E;
      [ | discriminate H ].
    apply IH in H. destruct H as [-> HL].
    apply streamlit_process_ok in E. destruct r; rewrite E.
    + split; [ now rewrite <- app_assoc | simpl; now rewrite HL ].
    + split; [ reflexivity | exact HL ].
Qed.

End StreamlitFacts.

Lemma app_accepts_iff
      (PdfReader : list Byte.byte -> result (list (result (option string))))
      (file : App.upload) :
  App.accepts PdfReader file = true
  <-> App.filename file <> EmptyString
      /\ App.text_of PdfReader file <> EmptyString.
Proof.
  unfold App.accepts. rewrite andb_true_iff, !negb_true_iff.
  now rewrite !String.eqb_neq.
Qed.

(** A file whose processing raises nothing adds
    exactly one record when the loop accepts it and none otherwise; the
    results of a batch that runs to its end are these records in the order
    of the files, one for each accepted file.  [app.py] accepts a file with
    a file name and a non-empty text; [streamlit.py] accepts a file of at
    most 10 MiB with a known extension and a text that is not blank. *)
Theorem one_record_per_accepted_file
        (PdfReader : list Byte.byte -> result (list (result (option string))))
        (Document : list Byte.byte -> result (list string))
        (decode_ignore : list Byte.byte -> string)
        (API_KEY : option string)
        (generate_content : nat -> string -> string -> result string)
        (json_loads : string -> result pyval)
        (i : nat) (jd : string) (file : App.upload) (u : Streamlit.uploaded) :
  ((forall e, outcome (App.process PdfReader generate_content json_loads
                         i jd file) <> Raise e) ->
   List.length (App.yield PdfReader generate_content json_loads i jd file)
   = (if App.accepts PdfReader file then 1 else 0))
  /\ ((forall e, outcome (Streamlit.process PdfReader Document decode_ignore
                            API_KEY generate_content json_loads i jd u)
                 <> Raise e) ->
      List.length (Streamlit.yield PdfReader Document decode_ignore API_KEY
                     generate_content json_loads i jd u)
      = (if Streamlit.accepts PdfReader Document decode_ignore u
         then 1 else 0))
  /\ (forall files results,
        outcome (App.loop PdfReader generate_content json_loads 0 jd files [])
        = Ok results ->
        results = App.yields PdfReader generate_content json_loads 0 jd files
        /\ List.length results
           = List.length (filter (App.accepts PdfReader) files))
  /\ (forall files results,
        outcome (Streamlit.loop PdfReader Document decode_ignore API_KEY
                   generate_content json_loads 0 jd files [])
        = Ok results ->
        results = Streamlit.yields PdfReader Document decode_ignore API_KEY
                    generate_content json_loads 0 jd files
        /\ List.length results
           = List.length
               (filter (Streamlit.accepts PdfReader Document decode_ignore)
                       files)).
Proof.
  split; [ apply app_yield_length | ].
  split; [ apply streamlit_yield_length | ].
  split.
  - intros files results H. apply app_loop_yields in H.
    destruct H as [-> HL]. now split.
  - intros files results H. apply streamlit_loop_yields in H.
    destruct H as [-> HL]. now split.
Qed.

(** One resume, read as "Python developer" and answered with an object:
    nothing raises, and each front end adds its one record. *)
Lemma one_record_witness :
  List.length
    (App.yield (Example.pages ["Python developer"])
       (Example.replies ["{`Name`: `Ann`, `MatchPercentage`: 70}"])
       Json.loads 0 "jd" (Example.pdf "cv.pdf")) = 1
  /\ List.length
       (Streamlit.yield (Example.pages ["Python developer"]) Example.no_docx
          Example.no_txt (Some "key")
          (Example.replies ["{`Name`: `Ann`, `MatchPercentage`: 70}"])
          Json.loads 0 "jd" (Example.up "cv.pdf")) = 1.
Proof.
  refine (let H := one_record_per_accepted_file
                     (Example.pages ["Python developer"]) Example.no_docx
                     Example.no_txt (Some "key")
                     (Example.replies ["{`Name`: `Ann`, `MatchPercentage`: 70}"])
                     Json.loads 0 "jd" (Example.pdf "cv.pdf")
                     (Example.up "cv.pdf") in
          conj (proj1 H _) (proj1 (proj2 H) _));
    intros e; vm_compute; discriminate.
Defined.

(** ** A request that lacks an input *)

(** C9, as the code has it.  [app.py] answers a request without a job
    description or without files with its 400 error and does nothing else:
    the trace is empty.  [streamlit.py] does the same for a request without
    files; for files without a job description it shows a warning and then
    runs the loop over the files as it does for any other job description. *)
Theorem missing_input_handling
        (PdfReader : list Byte.byte -> result (list (result (option string))))
        (Document : list Byte.byte -> result (list string))
        (decode_ignore : list Byte.byte -> string)
        (API_KEY : option string)
        (generate_content : nat -> string -> string -> result string)
        (json_loads : string -> result pyval)
        (form_jd : option string) (files : list App.upload)
        (jd : string) (uploaded_files : list Streamlit.uploaded) :
  (form_jd = None \/ form_jd = Some EmptyString \/ files = [] ->
   App.analyze PdfReader generate_content json_loads form_jd files
   = ([], Ok (App.Json400 "Please provide both JD and Resumes")))
  /\ Streamlit.run PdfReader Document decode_ignore API_KEY generate_content
       json_loads jd []
     = ([Tell NoFilesSelected], Ok Streamlit.Rejected)
  /\ (Streamlit.blank jd = true -> uploaded_files <> [] ->
      Streamlit.run PdfReader Document decode_ignore API_KEY generate_content
        json_loads jd uploaded_files
      = (Tell NoJobDescription
           :: trace (Streamlit.rank_all PdfReader Document decode_ignore API_KEY
                       generate_content json_loads jd uploaded_files),
         outcome (Streamlit.rank_all PdfReader Document decode_ignore API_KEY
                    generate_content json_loads jd uploaded_files))).
Proof.
  split; [ | split ].
  - intros [-> | [-> | ->]]; [ reflexivity | reflexivity | ].
    now destruct form_jd as [[ | c s] | ].
  - reflexivity.
  - intros Hjd Hfiles. destruct uploaded_files as [ | u rest];
      [ now destruct Hfiles | ].
    unfold Streamlit.run. rewrite Hjd.
    destruct (Streamlit.rank_all _ _ _ _ _ _ _ _) as [t r].
    now destruct r.
Qed.

(** A request with a job description and no file, and a page with a file
    and no job description. *)
Lemma missing_input_witness :
  Example.analyze ["Python developer"] ["{}"] (Some "Python developer wanted") []
  = ([], Ok (App.Json400 "Please provide both JD and Resumes"))
  /\ Example.run ["Python developer"] ["{}"] EmptyString ["cv.pdf"]
     = (Tell NoJobDescription
          :: trace (Streamlit.rank_all (Example.pages ["Python developer"])
                      Example.no_docx Example.no_txt (Some "key")
                      (Example.replies ["{}"]) Json.loads EmptyString
                      [Example.up "cv.pdf"]),
        outcome (Streamlit.rank_all (Example.pages ["Python developer"])
                   Example.no_docx Example.no_txt (Some "key")
                   (Example.replies ["{}"]) Json.loads EmptyString
                   [Example.up "cv.pdf"])).
Proof.
  refine (let H := missing_input_handling
                     (Example.pages ["Python developer"]) Example.no_docx
                     Example.no_txt (Some "key") (Example.replies ["{}"])
                     Json.loads (Some "Python developer wanted") []
                     EmptyString [Example.up "cv.pdf"] in
          conj (proj1 H (or_intror (or_intror eq_refl)))
               (proj2 (proj2 H) eq_refl _)).
  discriminate.
Defined.

(** C9 as stated fails.  One resume and an empty job description on the
    Streamlit page: the file is read, the model is asked, and the page
    shows a ranking of one record. *)
Lemma no_job_description_counterexample :
  Example.run ["Python developer"] ["{`Name`: `Ann`, `MatchPercentage`: 70}"]
              EmptyString ["cv.pdf"]
  = ([Tell NoJobDescription; Extract "cv.pdf";
      Ask "Python developer" EmptyString],
     Ok (Streamlit.Ranking
           [[("Name", PStr "Ann"); ("MatchPercentage", PInt 70);
             ("Filename", PStr "cv.pdf"); ("GlobalMatch", PStr "N/A");
             ("MarketTier", PStr EmptyString); ("MatchedKeywords", PList []);
             ("MissingKeywords", PList []); ("Summary", PStr EmptyString)]])).
Proof. vm_compute. reflexivity. Qed.

(** ** The score *)

Lemma has_char_app (c : ascii) (a b : string) :
  Py.has_char c (a ++ b) = Py.has_char c a || Py.has_char c b.
Proof.
  induction a as [ | x a IH]; simpl; [ reflexivity | ].
  now rewrite IH, orb_assoc.
Qed.

Lemma replace_percent_cons (c : ascii) (r : string) :
  Str.replace "%" EmptyString (String c r)
  = if Ascii.eqb c "%" then Str.replace "%" EmptyString r
    else String c (Str.replace "%" EmptyString r).
Proof.
  unfold Str.replace. cbn [Str.replace_from Str.startswith].
  replace (Str.startswith r EmptyString) with true by now destruct r.
  rewrite Ascii.eqb_sym, andb_true_r.
  now destruct (Ascii.eqb c "%").
Qed.

(** A character that is neither a digit nor the percent sign survives the
    removal of the percent signs and keeps the text from being digits. *)
Lemma not_digits_after_replace (c : ascii) (s : string) :
  Py.has_char c s = true ->
  Str.isdigit_char c = false ->
  Ascii.eqb c "%" = false ->
  Str.isdigit (Str.replace "%" EmptyString s) = false.
Proof.
  intros Hin Hd Hp.
  assert (H : Str.forallb_str Str.isdigit_char
                (Str.replace "%" EmptyString s) = false).
  { induction s as [ | x r IH]; [ discriminate Hin | ].
    rewrite replace_percent_cons. simpl in Hin.
    destruct (Ascii.eqb x c) eqn:E.
    - apply Ascii.eqb_eq in E. subst x. rewrite Hp. simpl. now rewrite Hd.
    - simpl in Hin. destruct (Ascii.eqb x "%"); [ now apply IH | ].
      simpl. rewrite (IH Hin). apply andb_false_r. }
  unfold Str.isdigit. now destruct (Str.replace "%" EmptyString s).
Qed.

Lemma layout_has_point_or_e (ds : string) (dp : Z) :
  Py.has_char "." (Float.layout ds dp) = true
  \/ Py.has_char "e" (Float.layout ds dp) = true.
Proof.
  unfold Float.layout.
  destruct ((dp <=? -4)%Z || (16 <? dp)%Z).
  - right. rewrite !has_char_app. simpl. now rewrite !orb_true_r.
  - left. destruct (dp <=? 0)%Z; [ reflexivity | ].
    destruct (_ <=? dp)%Z; rewrite !has_char_app; simpl;
      now rewrite !orb_true_r.
Qed.

Lemma repr_not_digits (x : spec_float) :
  Str.isdigit (Str.replace "%" EmptyString (Float.repr x)) = false.
Proof.
  destruct x as [s | s | | s m e].
  - now destruct s.
  - now destruct s.
  - reflexivity.
  - unfold Float.repr. destruct (Float.shortest _ _ _ _ _ _ _) as [ds dp].
    destruct (layout_has_point_or_e ds dp) as [H | H].
    + apply not_digits_after_replace with (c := "."%char);
        [ rewrite has_char_app, H; apply orb_true_r | reflexivity | reflexivity ].
    + apply not_digits_after_replace with (c := "e"%char);
        [ rewrite has_char_app, H; apply orb_true_r | reflexivity | reflexivity ].
Qed.

(** [app.py] scores every float with 0, whole or not. *)
Lemma app_scores_float_zero (d : dict) (filename : string) (x : spec_float) :
  Dict.get "MatchPercentage" d = Some (PFloat x) ->
  exists r, App.standardize (PDict d) filename = Ok r
            /\ Dict.get "MatchPercentage" r = Some (PInt 0).
Proof.
  intros H. unfold App.standardize.
  match goal with
  | |- context [Dict.set "Filename" _ ?x] => set (d1 := x)
  end.
  assert (E : Dict.get_default "MatchPercentage" (PStr "0")
                (Dict.set "Filename" (PStr filename) d1) = PFloat x).
  { unfold Dict.get_default. rewrite get_set_other by keys_differ.
    subst d1. destruct (_ || _)%bool;
      [ rewrite get_set_other by keys_differ | ]; now rewrite H. }
  rewrite E. cbn [Py.str Py.repr]. rewrite repr_not_digits.
  eexists. split; [ reflexivity | apply get_set_same ].
Qed.

(** In both front ends the score of a record is an [int], never a string. *)
Lemma score_is_int (data : pyval) (filename : string) (r : dict) :
  App.standardize data filename = Ok r
  \/ Streamlit.backfill data filename = Ok r ->
  exists z, Dict.get "MatchPercentage" r = Some (PInt z).
Proof.
  intros [H | H]; destruct data as [ | | | | | | d]; try discriminate H.
  - unfold App.standardize in H.
    match type of H with
    | context [Str.isdigit ?s] =>
        destruct (Str.isdigit s);
        [ destruct (Py.int_of_digits s); [ | discriminate H ] | ]
    end; injection H as <-; eexists; apply get_set_same.
  - injection H as <-. get_through.
    unfold Streamlit.identify. rewrite get_set_same. now eexists.
Qed.

(** The key the ranker reads off such a record is that [int]. *)
Lemma key_of_score (r : dict) (z : Z) :
  Dict.get "MatchPercentage" r = Some (PInt z) -> Rank.key r = z.
Proof. intros H. unfold Rank.key, Dict.get_default. now rewrite H. Qed.

(** [streamlit.py] on the scores the prompt asks for: a whole number from 0
    to 100 is kept, as an [int], as its decimal string and with a percent
    sign after it. *)
Lemma streamlit_keeps_percentages (z : Z) :
  (0 <= z <= 100)%Z ->
  Streamlit.safe_int_percent (PInt z) = z
  /\ Streamlit.safe_int_percent (PStr (Str.of_Z z)) = z
  /\ Streamlit.safe_int_percent (PStr (Str.of_Z z ++ "%")) = z.
Proof.
  intros Hz.
  assert (H : forallb
                (fun n =>
                   let z := Z.of_nat n in
                   (Streamlit.safe_int_percent (PInt z) =? z)%Z
                   && (Streamlit.safe_int_percent (PStr (Str.of_Z z)) =? z)%Z
                   && (Streamlit.safe_int_percent
                         (PStr (Str.of_Z z ++ "%")) =? z)%Z)
                (seq 0 101) = true) by (vm_compute; reflexivity).
  rewrite forallb_forall in H. specialize (H (Z.to_nat z)).
  rewrite Z2Nat.id in H by lia. cbv zeta in H.
  rewrite !andb_true_iff, !Z.eqb_eq in H. apply and_assoc.
  apply H. apply in_seq. lia.
Qed.

(** ** The name and the file name *)

(** Every record that a normaliser of either front end returns has the
    name of the uploaded file under [Filename], whatever the answer had
    there. *)
Lemma filename_after_normalising (data : pyval) (filename : string) (r : dict) :
  App.standardize data filename = Ok r
  \/ Streamlit.backfill data filename = Ok r ->
  Dict.get "Filename" r = Some (PStr filename).
Proof.
  intros [H | H]; destruct data as [ | | | | | | d]; try discriminate H.
  - unfold App.standardize in H.
    match type of H with
    | context [Str.isdigit ?s] =>
        destruct (Str.isdigit s);
        [ destruct (Py.int_of_digits s); [ | discriminate H ] | ]
    end; injection H as <-; now get_through.
  - injection H as <-. get_through. unfold Streamlit.identify. now get_through.
Qed.


(** [app.py] puts the file name where the answer has no name or the name
    of the prompt's template; any other name, the empty one and a null
    among them, is kept as it is. *)
Lemma app_name (d r : dict) (filename : string) :
  App.standardize (PDict d) filename = Ok r ->
  Dict.get "Name" r
  = match Dict.get "Name" d with
    | None => Some (PStr filename)
    | Some (PStr s) =>
        Some (PStr (if String.eqb s "Candidate Name" then filename else s))
    | Some v => Some v
    end.
Proof.
  intros H. unfold App.standardize in H.
  match type of H with
  | context [Str.isdigit ?s] =>
      destruct (Str.isdigit s);
      [ destruct (Py.int_of_digits s); [ | discriminate H ] | ]
  end; injection H as <-; get_through; unfold Dict.contains;
    destruct (Dict.get "Name" d) as [[ | | | | s | | ] | ] eqn:E; simpl;
    get_through; try exact E; try reflexivity;
    destruct (String.eqb s "Candidate Name"); now get_through.
Qed.

(** The placeholder of [streamlit.py] after its backfill: every field of a
    record, the file name among them. *)
Lemma streamlit_placeholder_record (name : string) :
  Streamlit.backfill (PDict (Streamlit.placeholder name)) name
  = Ok [ ("Name", PStr name);
         ("MatchPercentage", PInt 0);
         ("GlobalMatch", PStr "N/A");
         ("MarketTier", PStr EmptyString);
         ("MatchedKeywords", PList []);
         ("MissingKeywords", PList []);
         ("Summary", PStr "Error parsing AI response.");
         ("Filename", PStr name) ].
Proof.
  unfold Streamlit.backfill, Streamlit.identify.
  cbn [Streamlit.placeholder Dict.get String.eqb Ascii.eqb Bool.eqb
       Streamlit.no_name].
  now destruct (String.eqb name EmptyString || String.eqb name "Candidate Name").
Qed.

(** ** The defects, at concrete answers *)

(** C1.  The model scores a resume 85.5.  [app.py] records 0, since the
    text of the number is not all digits; [streamlit.py] records 86. *)
Theorem app_drops_fractional_score :
  Example.analyze ["Python developer"] ["{`MatchPercentage`: 85.5}"]
    (Some "jd") ["cv.pdf"]
  = ([Tell (Processing "cv.pdf"); Extract "cv.pdf";
      Ask "Python developer" "jd"],
     Ok (App.Json200
           [[("MatchPercentage", PInt 0); ("Name", PStr "cv.pdf");
             ("Filename", PStr "cv.pdf")]]))
  /\ Example.run ["Python developer"] ["{`MatchPercentage`: 85.5}"] "jd"
       ["cv.pdf"]
     = ([Extract "cv.pdf"; Ask "Python developer" "jd"],
        Ok (Streamlit.Ranking
              [[("MatchPercentage", PInt 86); ("Name", PStr "cv.pdf");
                ("Filename", PStr "cv.pdf"); ("GlobalMatch", PStr "N/A");
                ("MarketTier", PStr EmptyString); ("MatchedKeywords", PList []);
                ("MissingKeywords", PList []);
                ("Summary", PStr EmptyString)]])).
Proof. split; vm_compute; reflexivity. Qed.

(** C2.  Two resumes; the model answers the first with the JSON number 42.
    [app.py] raises [TypeError] at line 114, its outer handler answers 500
    and the second resume is never read; [streamlit.py] raises
    [AttributeError] at line 232 and the run ends there. *)
Theorem non_object_answer_aborts_batch :
  Example.analyze ["Python developer"]
    ["42"; "{`Name`: `Bo`, `MatchPercentage`: 70}"] (Some "jd")
    ["a.pdf"; "b.pdf"]
  = ([Tell (Processing "a.pdf"); Extract "a.pdf"; Ask "Python developer" "jd";
      Tell (ServerError TypeError)],
     Ok (App.Json500 TypeError))
  /\ Example.run ["Python developer"]
       ["42"; "{`Name`: `Bo`, `MatchPercentage`: 70}"] "jd" ["a.pdf"; "b.pdf"]
     = ([Extract "a.pdf"; Ask "Python developer" "jd"], Raise AttributeError).
Proof. split; vm_compute; reflexivity. Qed.

(** C3.  The model answers with text that is no JSON.  The placeholder of
    [app.py] has neither list of keywords; that of [streamlit.py] has both,
    empty. *)
Theorem app_placeholder_lacks_keywords :
  Example.analyze ["Python developer"] ["Sorry, no verdict."] (Some "jd")
    ["cv.pdf"]
  = ([Tell (Processing "cv.pdf"); Extract "cv.pdf";
      Ask "Python developer" "jd";
      Tell (JsonError "cv.pdf" "Sorry, no verdict.")],
     Ok (App.Json200
           [[("Name", PStr "cv.pdf"); ("MatchPercentage", PInt 0);
             ("Summary",
              PStr "Error parsing AI response. View Terminal for details.");
             ("GlobalMatch", PStr "N/A")]]))
  /\ Dict.get "MatchedKeywords" (App.placeholder "cv.pdf") = None
  /\ Dict.get "MissingKeywords" (App.placeholder "cv.pdf") = None
  /\ Example.run ["Python developer"] ["Sorry, no verdict."] "jd" ["cv.pdf"]
     = ([Extract "cv.pdf"; Ask "Python developer" "jd";
         Tell (InvalidJson "cv.pdf" "Sorry, no verdict.")],
        Ok (Streamlit.Ranking
              [[("Name", PStr "cv.pdf"); ("MatchPercentage", PInt 0);
                ("GlobalMatch", PStr "N/A"); ("MarketTier", PStr EmptyString);
                ("MatchedKeywords", PList []); ("MissingKeywords", PList []);
                ("Summary", PStr "Error parsing AI response.");
                ("Filename", PStr "cv.pdf")]])).
Proof. repeat split; vm_compute; reflexivity. Qed.

(** C4.  The model answers with an empty name.  [app.py] keeps the empty
    name; [streamlit.py] puts the file name.  Both put the file name for the
    name of the prompt's template. *)
Theorem app_keeps_empty_name :
  Example.analyze ["Python developer"] ["{`Name`: ``, `MatchPercentage`: 60}"]
    (Some "jd") ["john.pdf"]
  = ([Tell (Processing "john.pdf"); Extract "john.pdf";
      Ask "Python developer" "jd"],
     Ok (App.Json200
           [[("Name", PStr EmptyString); ("MatchPercentage", PInt 60);
             ("Filename", PStr "john.pdf")]]))
  /\ Example.run ["Python developer"] ["{`Name`: ``, `MatchPercentage`: 60}"]
       "jd" ["john.pdf"]
     = ([Extract "john.pdf"; Ask "Python developer" "jd"],
        Ok (Streamlit.Ranking
              [[("Name", PStr "john.pdf"); ("MatchPercentage", PInt 60);
                ("Filename", PStr "john.pdf"); ("GlobalMatch", PStr "N/A");
                ("MarketTier", PStr EmptyString); ("MatchedKeywords", PList []);
                ("MissingKeywords", PList []);
                ("Summary", PStr EmptyString)]]))
  /\ Example.analyze ["Python developer"]
       ["{`Name`:`Candidate Name`,`MatchPercentage`:60}"] (Some "jd")
       ["john.pdf"]
     = ([Tell (Processing "john.pdf"); Extract "john.pdf";
         Ask "Python developer" "jd"],
        Ok (App.Json200
              [[("Name", PStr "john.pdf"); ("MatchPercentage", PInt 60);
                ("Filename", PStr "john.pdf")]])).
Proof. repeat split; vm_compute; reflexivity. Qed.

(** C5.  The model answers with text that is no JSON.  The record that
    [app.py] returns has no file name; that of [streamlit.py] has it. *)
Theorem app_placeholder_lacks_filename :
  Example.analyze ["Python developer"] ["Sorry, no verdict."] (Some "jd")
    ["john.pdf"]
  = ([Tell (Processing "john.pdf"); Extract "john.pdf";
      Ask "Python developer" "jd";
      Tell (JsonError "john.pdf" "Sorry, no verdict.")],
     Ok (App.Json200 [App.placeholder "john.pdf"]))
  /\ Dict.get "Filename" (App.placeholder "john.pdf") = None
  /\ (exists t r,
        Example.run ["Python developer"] ["Sorry, no verdict."] "jd"
          ["john.pdf"] = (t, Ok (Streamlit.Ranking [r]))
        /\ Dict.get "Filename" r = Some (PStr "john.pdf")).
Proof.
  split; [ vm_compute; reflexivity | ].
  split; [ reflexivity | ].
  eexists. eexists. split; vm_compute; reflexivity.
Qed.

(** C6.  The reader finds one blank in the file: the text is empty once
    stripped, and such a file is to be skipped.  [streamlit.py] skips it
    and asks no model; [app.py], whose test is [not text], asks the model
    about the blank and adds a record. *)
Theorem app_keeps_blank_text :
  Example.analyze [" "] ["{`Name`: `Ann`, `MatchPercentage`: 70}"]
    (Some "jd") ["cv.pdf"]
  = ([Tell (Processing "cv.pdf"); Extract "cv.pdf"; Ask " " "jd"],
     Ok (App.Json200
           [[("Name", PStr "Ann"); ("MatchPercentage", PInt 70);
             ("Filename", PStr "cv.pdf")]]))
  /\ Example.run [" "] ["{`Name`: `Ann`, `MatchPercentage`: 70}"]
       "jd" ["cv.pdf"]
     = ([Extract "cv.pdf"; Tell (NoText "cv.pdf"); Tell NoResults],
        Ok Streamlit.NothingToShow).
Proof. split; vm_compute; reflexivity. Qed.

(** C8.  The model answers with a name and a score and none of the other
    fields.  [streamlit.py] fills in the five defaults; the record of
    [app.py] has none of the five fields. *)
Theorem app_leaves_missing_fields_out :
  Example.analyze ["Python developer"]
    ["{`Name`: `Ann`, `MatchPercentage`: 70}"] (Some "jd") ["cv.pdf"]
  = ([Tell (Processing "cv.pdf"); Extract "cv.pdf";
      Ask "Python developer" "jd"],
     Ok (App.Json200
           [[("Name", PStr "Ann"); ("MatchPercentage", PInt 70);
             ("Filename", PStr "cv.pdf")]]))
  /\ Example.run ["Python developer"]
       ["{`Name`: `Ann`, `MatchPercentage`: 70}"] "jd" ["cv.pdf"]
     = ([Extract "cv.pdf"; Ask "Python developer" "jd"],
        Ok (Streamlit.Ranking
              [[("Name", PStr "Ann"); ("MatchPercentage", PInt 70);
                ("Filename", PStr "cv.pdf"); ("GlobalMatch", PStr "N/A");
                ("MarketTier", PStr EmptyString); ("MatchedKeywords", PList []);
                ("MissingKeywords", PList []);
                ("Summary", PStr EmptyString)]]))
  /\ (forall k dflt,
        In (k, dflt) Streamlit.defaults ->
        Dict.get k [("Name", PStr "Ann"); ("MatchPercentage", PInt 70);
                    ("Filename", PStr "cv.pdf")] = None).
Proof.
  split; [ vm_compute; reflexivity | ].
  split; [ vm_compute; reflexivity | ].
  intros k dflt Hin. unfold Streamlit.defaults in Hin. simpl in Hin.
  repeat (destruct Hin as [Hin | Hin]; [ injection Hin as <- _; reflexivity | ]).
  destruct Hin.
Qed.

(** ** Where a file's processing raises *)

(** An answer that is JSON and no object: a number, a string, a list, a
    truth value or null. *)
Lemma non_object_raises (v : pyval) (filename : string) :
  (forall d, v <> PDict d) ->
  App.standardize v filename = Raise TypeError
  /\ Streamlit.backfill v filename = Raise AttributeError.
Proof.
  intros H. destruct v; try (split; reflexivity). now destruct (H d).
Qed.

(** The processing of a file by [streamlit.py] raises in two places and
    nowhere else: in [json.loads], when it raises something other than
    [json.JSONDecodeError], and at the first [parsed.get], which raises
    [AttributeError] when the answer is JSON and no object. *)
Lemma streamlit_raises_in_loads_or_get
      (PdfReader : list Byte.byte -> result (list (result (option string))))
      (Document : list Byte.byte -> result (list string))
      (decode_ignore : list Byte.byte -> string)
      (API_KEY : option string)
      (generate_content : nat -> string -> string -> result string)
      (json_loads : string -> result pyval)
      (i : nat) (jd : string) (u : Streamlit.uploaded) (e : exn) :
  outcome (Streamlit.process PdfReader Document decode_ignore API_KEY
             generate_content json_loads i jd u) = Raise e
  <-> Streamlit.accepts PdfReader Document decode_ignore u = true
      /\ ((json_loads
             (Streamlit.clean_ai_json
                (Streamlit.answer PdfReader Document decode_ignore API_KEY
                   generate_content i jd u)) = Raise e
           /\ e <> JSONDecodeError)
          \/ (e = AttributeError
              /\ exists v,
                   json_loads
                     (Streamlit.clean_ai_json
                        (Streamlit.answer PdfReader Document decode_ignore
                           API_KEY generate_content i jd u)) = Ok v
                   /\ forall d, v <> PDict d)).
Proof.
  rewrite streamlit_process_outcome. unfold Streamlit.answer.
  destruct (Streamlit.accepts _ _ _ u);
    [ | split; [ discriminate | now intros [? _] ] ].
  destruct (json_loads _) as [v | x] eqn:E.
  - split.
    + destruct v; try discriminate; intros [= <-];
        (split; [ reflexivity | right; split; [ reflexivity | ] ]);
        eexists; (split; [ reflexivity | discriminate ]).
    + intros [_ [[H _] | [-> [v' [[= <-] H]]]]]; [ discriminate H | ].
      destruct v; try reflexivity. now destruct (H d).
  - split.
    + destruct x; try discriminate; intros [= <-];
        (split; [ reflexivity | left; split; [ reflexivity | discriminate ] ]).
    + intros [_ [[[= <-] H] | [_ [v' [H _]]]]]; [ | discriminate H ].
      destruct x; try reflexivity. now destruct H.
Qed.

(** The processing of a file by [app.py] raises in two places and nowhere
    else: in [json.loads], when it raises something other than
    [json.JSONDecodeError], and in the normalisation of the parsed answer
    (an answer that is no object, a score that [isdigit] accepts and [int]
    refuses). *)
Lemma app_raises_in_loads_or_standardize
      (PdfReader : list Byte.byte -> result (list (result (option string))))
      (generate_content : nat -> string -> string -> result string)
      (json_loads : string -> result pyval)
      (i : nat) (jd : string) (file : App.upload) (e : exn) :
  outcome (App.process PdfReader generate_content json_loads i jd file)
  = Raise e
  <-> App.accepts PdfReader file = true
      /\ ((json_loads
             (App.clean (App.answer PdfReader generate_content i jd file))
           = Raise e
           /\ e <> JSONDecodeError)
          \/ exists v,
               json_loads
                 (App.clean (App.answer PdfReader generate_content i jd file))
               = Ok v
               /\ App.standardize v (App.filename file) = Raise e).
Proof.
  rewrite app_process_outcome. unfold App.answer.
  destruct (App.accepts PdfReader file);
    [ | split; [ discriminate | now intros [? _] ] ].
  destruct (json_loads _) as [v | x] eqn:E.
  - split.
    + destruct (App.standardize v (App.filename file)) eqn:E';
        [ discriminate | ].
      intros [= <-]. split; [ reflexivity | right; eauto ].
    + intros [_ [[H _] | [v' [[= <-] H]]]]; [ discriminate H | ].
      now rewrite H.
  - split.
    + destruct x; try discriminate; intros [= <-];
        (split; [ reflexivity | left; split; [ reflexivity | discriminate ] ]).
    + intros [_ [[[= <-] H] | [v' [H _]]]]; [ | discriminate H ].
      destruct x; try reflexivity. now destruct H.
Qed.

(** ** An answer that is no JSON *)


(** When [json.loads] refuses the cleaned answer of an accepted file,
    [streamlit.py] adds a whole record: the file name as name and as file
    name, the score 0, N/A, the fixed summary and both lists empty. *)
Lemma streamlit_placeholder_on_bad_json
      (PdfReader : list Byte.byte -> result (list (result (option string))))
      (Document : list Byte.byte -> result (list string))
      (decode_ignore : list Byte.byte -> string)
      (API_KEY : option string)
      (generate_content : nat -> string -> string -> result string)
      (json_loads : string -> result pyval)
      (i : nat) (jd : string) (u : Streamlit.uploaded) :
  Streamlit.accepts PdfReader Document decode_ignore u = true ->
  json_loads
    (Streamlit.clean_ai_json
       (Streamlit.answer PdfReader Document decode_ignore API_KEY
          generate_content i jd u)) = Raise JSONDecodeError ->
  outcome (Streamlit.process PdfReader Document decode_ignore API_KEY
             generate_content json_loads i jd u)
  = Ok (Some [ ("Name", PStr (Streamlit.name u));
               ("MatchPercentage", PInt 0);
               ("GlobalMatch", PStr "N/A");
               ("MarketTier", PStr EmptyString);
               ("MatchedKeywords", PList []);
               ("MissingKeywords", PList []);
               ("Summary", PStr "Error parsing AI response.");
               ("Filename", PStr (Streamlit.name u)) ]).
Proof.
  intros H E. rewrite streamlit_process_outcome, H.
  unfold Streamlit.answer in E. rewrite E.
  now rewrite streamlit_placeholder_record.
Qed.

(** ** What the front ends return *)

(** The results of [analyze] are the records of the files, ranked: the
    same records, in descending order of score. *)
Lemma app_analyze_ranked
      (PdfReader : list Byte.byte -> result (list (result (option string))))
      (generate_content : nat -> string -> string -> result string)
      (json_loads : string -> result pyval)
      (jd : option string) (files : list App.upload) (results : list dict) :
  outcome (App.analyze PdfReader generate_content json_loads jd files)
  = Ok (App.Json200 results) ->
  exists jd', jd = Some jd'
    /\ Permutation
         (App.yields PdfReader generate_content json_loads 0 jd' files) results
    /\ StronglySorted Rank.descending results.
Proof.
  unfold App.analyze.
  destruct jd as [[ | c jd] | ]; [ discriminate | | discriminate ].
  destruct files as [ | file rest]; [ discriminate | ].
  autorewrite with run.
  destruct (outcome (App.loop _ _ _ _ _ _ _)) as [rs | e] eqn:E;
    [ | cbn; discriminate ].
  apply app_loop_yields in E. destruct E as [-> _]. cbn.
  intros [= <-]. eexists. split; [ reflexivity | ].
  split; [ apply sort_perm | apply sort_sorted ].
Qed.

(** The results the Streamlit page shows are the records of the files,
    ranked: the same records, in descending order of score. *)
Lemma streamlit_run_ranked
      (PdfReader : list Byte.byte -> result (list (result (option string))))
      (Document : list Byte.byte -> result (list string))
      (decode_ignore : list Byte.byte -> string)
      (API_KEY : option string)
      (generate_content : nat -> string -> string -> result string)
      (json_loads : string -> result pyval)
      (jd : string) (files : list Streamlit.uploaded) (results : list dict) :
  outcome (Streamlit.run PdfReader Document decode_ignore API_KEY
             generate_content json_loads jd files)
  = Ok (Streamlit.Ranking results) ->
  Permutation
    (Streamlit.yields PdfReader Document decode_ignore API_KEY
       generate_content json_loads 0 jd files) results
  /\ StronglySorted Rank.descending results.
Proof.
  unfold Streamlit.run, Streamlit.rank_all.
  destruct files as [ | u rest]; [ discriminate | ].
  autorewrite with run.
  replace (outcome (if Streamlit.blank jd
                    then emit (Tell NoJobDescription) else ret tt))
    with (Ok tt) by now destruct (Streamlit.blank jd).
  destruct (outcome (Streamlit.loop _ _ _ _ _ _ _ _ _ _)) as [rs | e] eqn:E;
    [ | discriminate ].
  apply streamlit_loop_yields in E. destruct E as [-> _]. cbn [app].
  destruct (Streamlit.yields _ _ _ _ _ _ _ _ _) eqn:Y;
    [ cbn; discriminate | ].
  autorewrite with run. intros [= <-].
  split; [ apply (sort_perm (d :: l)) | apply (sort_sorted (d :: l)) ].
Qed.

(** * More of the code *)

(** ** The ranker, further *)

Lemma insert_on_top (x : dict) (l : list dict) :
  Forall (fun y => Rank.descending x y) l -> Rank.insert x l = x :: l.
Proof.
  destruct 1 as [ | y r Hy _]; [ reflexivity | ].
  simpl. unfold Rank.descending in Hy.
  now replace (Rank.key x <? Rank.key y)%Z with false
    by (symmetry; apply Z.ltb_ge; exact Hy).
Qed.

Lemma sort_of_sorted (l : list dict) :
  StronglySorted Rank.descending l -> Rank.sort l = l.
Proof.
  induction 1 as [ | x r Hr IH Hx]; [ reflexivity | ].
  simpl. rewrite IH. now apply insert_on_top.
Qed.

(** Ranking is idempotent: a collection that is already in descending order
    of score comes back as it is, so ranking twice is ranking once; and a
    ranking has as many records as it was given. *)
Theorem rank_idempotent (results : list dict) :
  (StronglySorted Rank.descending results -> Rank.sort results = results)
  /\ Rank.sort (Rank.sort results) = Rank.sort results
  /\ List.length (Rank.sort results) = List.length results.
Proof.
  split; [ apply sort_of_sorted | ].
  split; [ apply sort_of_sorted, sort_sorted | ].
  symmetry. apply Permutation_length, sort_perm.
Qed.

Lemma rank_idempotent_witness :
  Rank.sort [[("MatchPercentage", PInt 90)]; [("MatchPercentage", PInt 40)]]
  = [[("MatchPercentage", PInt 90)]; [("MatchPercentage", PInt 40)]].
Proof.
  refine (proj1 (rank_idempotent
                   [[("MatchPercentage", PInt 90)];
                    [("MatchPercentage", PInt 40)]]) _).
  repeat constructor; unfold Rank.descending; vm_compute; discriminate.
Defined.

(** The first record of a ranking has the highest score of the collection,
    and among the records of that score it is the one that came first. *)
Theorem rank_top_is_best (results rest : list dict) (top : dict) :
  Rank.sort results = top :: rest ->
  (forall r, In r results -> (Rank.key r <= Rank.key top)%Z)
  /\ exists tail,
       filter (Rank.scored (Rank.key top)) results = top :: tail.
Proof.
  intros H. split.
  - intros r Hr.
    assert (Hin : In r (top :: rest))
      by (rewrite <- H; eapply Permutation_in; [ apply sort_perm | exact Hr ]).
    destruct Hin as [<- | Hin]; [ lia | ].
    pose proof (sort_sorted results) as S. rewrite H in S.
    apply StronglySorted_inv in S. destruct S as [_ S].
    rewrite Forall_forall in S. exact (S r Hin).
  - rewrite <- (filter_sort (Rank.key top) results), H. simpl.
    unfold Rank.scored at 1. rewrite Z.eqb_refl. eauto.
Qed.

Lemma rank_top_witness :
  (forall r,
      In r [[("Name", PStr "a"); ("MatchPercentage", PInt 40)];
            [("Name", PStr "b"); ("MatchPercentage", PInt 90)];
            [("Name", PStr "c"); ("MatchPercentage", PInt 90)]] ->
      (Rank.key r
       <= Rank.key [("Name", PStr "b"); ("MatchPercentage", PInt 90)])%Z)
  /\ exists tail,
       filter (Rank.scored
                 (Rank.key [("Name", PStr "b"); ("MatchPercentage", PInt 90)]))
              [[("Name", PStr "a"); ("MatchPercentage", PInt 40)];
               [("Name", PStr "b"); ("MatchPercentage", PInt 90)];
               [("Name", PStr "c"); ("MatchPercentage", PInt 90)]]
       = [("Name", PStr "b"); ("MatchPercentage", PInt 90)] :: tail.
Proof.
  exact (rank_top_is_best
           [[("Name", PStr "a"); ("MatchPercentage", PInt 40)];
            [("Name", PStr "b"); ("MatchPercentage", PInt 90)];
            [("Name", PStr "c"); ("MatchPercentage", PInt 90)]]
           [[("Name", PStr "c"); ("MatchPercentage", PInt 90)];
            [("Name", PStr "a"); ("MatchPercentage", PInt 40)]]
           [("Name", PStr "b"); ("MatchPercentage", PInt 90)] eq_refl).
Defined.

(** ** The records, further *)

(** A key the normaliser does not write to keeps the value the answer gave
    it, or stays absent: whatever else the model puts into its object goes
    through to the record. *)
Theorem other_keys_pass_through (d r : dict) (filename k : string) :
  (~ In k Obs.written_by_app ->
   App.standardize (PDict d) filename = Ok r -> Dict.get k r = Dict.get k d)
  /\ (~ In k Obs.fields ->
      Streamlit.backfill (PDict d) filename = Ok r ->
      Dict.get k r = Dict.get k d).
Proof.
  split; intros N H.
  - apply app_standardize_keeps with (filename := filename); [ exact H | | | ];
      intros ->; apply N; simpl; tauto.
  - injection H as <-.
    assert (forall k', In k' Obs.fields -> k <> k')
      as D by (intros k' Hk' ->; now apply N).
    unfold Streamlit.backfill_field.
    rewrite !get_setdefault_other by (apply D; simpl; tauto).
    apply get_identify_other; apply D; simpl; tauto.
Qed.

Lemma other_keys_witness :
  Dict.get "Notes"
    match App.standardize
            (PDict [("Notes", PStr "strong SQL"); ("MatchPercentage", PInt 70)])
            "cv.pdf" with
    | Ok r => r
    | Raise _ => []
    end
  = Some (PStr "strong SQL").
Proof.
  refine (proj1 (other_keys_pass_through
                   [("Notes", PStr "strong SQL"); ("MatchPercentage", PInt 70)]
                   _ "cv.pdf" "Notes") _ eq_refl).
  simpl. intros [H | [H | [H | []]]]; discriminate H.
Defined.

(** Every record of [streamlit.py] has all eight fields of a result. *)
Theorem streamlit_record_complete (parsed : pyval) (name k : string) (r : dict) :
  Streamlit.backfill parsed name = Ok r ->
  In k Obs.fields ->
  Dict.contains k r = true.
Proof.
  intros H Hk. destruct parsed as [ | | | | | | d]; try discriminate H.
  injection H as <-. unfold Dict.contains.
  simpl in Hk.
  repeat (destruct Hk as [<- | Hk]); [ .. | destruct Hk ];
    get_through; unfold Streamlit.identify; get_through;
    try reflexivity;
    destruct (Streamlit.no_name (Dict.get "Name" d)) eqn:E; get_through;
    try reflexivity.
  destruct (Dict.get "Name" d); [ reflexivity | discriminate E ].
Qed.

Lemma streamlit_record_complete_witness :
  Dict.contains "MissingKeywords"
    [("MatchPercentage", PInt 0); ("Name", PStr "cv.pdf");
     ("Filename", PStr "cv.pdf"); ("GlobalMatch", PStr "N/A");
     ("MarketTier", PStr EmptyString); ("MatchedKeywords", PList []);
     ("MissingKeywords", PList []); ("Summary", PStr EmptyString)] = true.
Proof.
  refine (streamlit_record_complete
            (PDict [("MatchPercentage", PStr "n/a")]) "cv.pdf"
            "MissingKeywords" _ eq_refl _).
  simpl. tauto.
Defined.

(** ** The score, further *)




(** The ways to write a whole score [z]: the number, its digits as a
    string, and the digits with a percent sign. *)
Lemma app_reads_percentages (z : Z) :
  (0 <= z <= 100)%Z ->
  forall v, In v [PInt z; PStr (Str.of_Z z); PStr (Str.of_Z z ++ "%")] ->
    Str.isdigit (Str.replace "%" EmptyString (Py.str v)) = true
    /\ Py.int_of_digits (Str.replace "%" EmptyString (Py.str v)) = Ok z.
Proof.
  intros Hz.
  assert (H : forallb
                (fun n =>
                   forallb
                     (fun v =>
                        Str.isdigit (Str.replace "%" EmptyString (Py.str v))
                        && match Py.int_of_digits
                                   (Str.replace "%" EmptyString (Py.str v)) with
                           | Ok z' => (z' =? Z.of_nat n)%Z
                           | Raise _ => false
                           end)
                     [PInt (Z.of_nat n); PStr (Str.of_Z (Z.of_nat n));
                      PStr (Str.of_Z (Z.of_nat n) ++ "%")])
                (seq 0 101) = true) by (vm_compute; reflexivity).
  rewrite forallb_forall in H. specialize (H (Z.to_nat z)).
  rewrite Z2Nat.id in H by lia.
  assert (Hin : In (Z.to_nat z) (seq 0 101)) by (apply in_seq; lia).
  specialize (H Hin). rewrite forallb_forall in H.
  intros v Hv. specialize (H v Hv). apply andb_true_iff in H.
  destruct H as [H1 H2]. split; [ exact H1 | ].
  destruct (Py.int_of_digits _) as [z' | ]; [ | discriminate H2 ].
  apply Z.eqb_eq in H2. now subst.
Qed.

(** The two front ends agree on the scores the prompt asks for: a whole
    number from 0 to 100, written as a number, as a string of digits or with
    a percent sign after it, is the score of the record in both. *)
Theorem front_ends_agree_on_percentages
        (d : dict) (filename : string) (z : Z) (v : pyval) :
  (0 <= z <= 100)%Z ->
  In v [PInt z; PStr (Str.of_Z z); PStr (Str.of_Z z ++ "%")] ->
  Dict.get "MatchPercentage" d = Some v ->
  (exists r, App.standardize (PDict d) filename = Ok r
             /\ Dict.get "MatchPercentage" r = Some (PInt z))
  /\ (exists r, Streamlit.backfill (PDict d) filename = Ok r
                /\ Dict.get "MatchPercentage" r = Some (PInt z)).
Proof.
  intros Hz Hv Hd. split.
  - destruct (app_reads_percentages z Hz v Hv) as [H1 H2].
    unfold App.standardize.
    match goal with
    | |- context [Dict.set "Filename" _ ?x] => set (d1 := x)
    end.
    assert (E : Dict.get_default "MatchPercentage" (PStr "0")
                  (Dict.set "Filename" (PStr filename) d1) = v).
    { unfold Dict.get_default. rewrite get_set_other by keys_differ.
      subst d1. destruct (_ || _)%bool;
        [ rewrite get_set_other by keys_differ | ]; now rewrite Hd. }
    rewrite E, H1, H2. eexists. split; [ reflexivity | apply get_set_same ].
  - eexists. split; [ reflexivity | ].
    get_through. unfold Streamlit.identify. rewrite get_set_same.
    assert (E : Dict.get_default "MatchPercentage" (PInt 0)
                  (Dict.set "Filename" (PStr filename)
                     (if Streamlit.no_name (Dict.get "Name" d)
                      then Dict.set "Name" (PStr filename) d else d)) = v).
    { unfold Dict.get_default. rewrite get_set_other by keys_differ.
      destruct (Streamlit.no_name _);
        [ rewrite get_set_other by keys_differ | ]; now rewrite Hd. }
    rewrite E. do 2 f_equal.
    pose proof (streamlit_keeps_percentages z Hz) as [K1 [K2 K3]].
    simpl in Hv. destruct Hv as [<- | [<- | [<- | []]]]; assumption.
Qed.

Lemma front_ends_agree_witness :
  (exists r,
      App.standardize (PDict [("MatchPercentage", PStr "85%")]) "cv.pdf" = Ok r
      /\ Dict.get "MatchPercentage" r = Some (PInt 85))
  /\ (exists r,
         Streamlit.backfill (PDict [("MatchPercentage", PStr "85%")]) "cv.pdf"
         = Ok r
         /\ Dict.get "MatchPercentage" r = Some (PInt 85)).
Proof.
  refine (front_ends_agree_on_percentages
            [("MatchPercentage", PStr "85%")] "cv.pdf" 85 (PStr "85%")
            _ _ eq_refl).
  - lia.
  - simpl. tauto.
Defined.

(** ** The front ends, further *)

(** [analyze] never raises: it answers.  Its answer is the 500 error
    exactly when the processing of some file raised, and that answer carries
    the exception and none of the records made before it. *)
Theorem app_analyze_always_answers
        (PdfReader : list Byte.byte -> result (list (result (option string))))
        (generate_content : nat -> string -> string -> result string)
        (json_loads : string -> result pyval)
        (jd : option string) (files : list App.upload) :
  (exists r, outcome (App.analyze PdfReader generate_content json_loads
                        jd files) = Ok r)
  /\ forall e,
       outcome (App.analyze PdfReader generate_content json_loads jd files)
       = Ok (App.Json500 e)
       <-> exists jd', jd = Some jd' /\ jd' <> EmptyString /\ files <> []
                       /\ outcome (App.loop PdfReader generate_content
                                     json_loads 0 jd' files []) = Raise e.
Proof.
  unfold App.analyze.
  destruct jd as [[ | c jd] | ].
  - split; [ now eexists | ]. intros e. split; [ discriminate | ].
    intros [jd' [[= <-] [N _]]]. now destruct N.
  - destruct files as [ | file rest].
    + split; [ now eexists | ]. intros e. split; [ discriminate | ].
      intros [jd' [_ [_ [N _]]]]. now destruct N.
    + autorewrite with run.
      destruct (outcome (App.loop _ _ _ _ _ _ _)) as [rs | e0] eqn:E;
        cbn -[App.loop].
      * split; [ now eexists | ]. intros e. split; [ discriminate | ].
        intros [jd' [[= <-] [_ [_ H]]]]. rewrite E in H. discriminate H.
      * split; [ now eexists | ]. intros e. split.
        -- intros [= <-]. exists (String c jd).
           repeat split; try discriminate. exact E.
        -- intros [jd' [[= <-] [_ [_ H]]]]. rewrite E in H.
           now injection H as <-.
  - split; [ now eexists | ]. intros e. split; [ discriminate | ].
    intros [jd' [H _]]. discriminate H.
Qed.

(** The Streamlit page never shows an empty ranking: with no record it
    shows the notice that there is nothing to display. *)
Theorem streamlit_ranking_not_empty
        (PdfReader : list Byte.byte -> result (list (result (option string))))
        (Document : list Byte.byte -> result (list string))
        (decode_ignore : list Byte.byte -> string)
        (API_KEY : option string)
        (generate_content : nat -> string -> string -> result string)
        (json_loads : string -> result pyval)
        (jd : string) (files : list Streamlit.uploaded) :
  (forall results,
      outcome (Streamlit.run PdfReader Document decode_ignore API_KEY
                 generate_content json_loads jd files)
      = Ok (Streamlit.Ranking results) ->
      results <> [])
  /\ (files <> [] ->
      outcome (Streamlit.loop PdfReader Document decode_ignore API_KEY
                 generate_content json_loads 0 jd files []) = Ok [] ->
      outcome (Streamlit.run PdfReader Document decode_ignore API_KEY
                 generate_content json_loads jd files)
      = Ok Streamlit.NothingToShow).
Proof.
  unfold Streamlit.run, Streamlit.rank_all.
  destruct files as [ | u rest].
  - split; [ discriminate | ]. intros N. now destruct N.
  - autorewrite with run.
    replace (outcome (if Streamlit.blank jd
                      then emit (Tell NoJobDescription) else ret tt))
      with (Ok tt) by now destruct (Streamlit.blank jd).
    destruct (outcome (Streamlit.loop _ _ _ _ _ _ _ _ _ _)) as [rs | e].
    + destruct rs as [ | d l]; cbn.
      * split; [ discriminate | reflexivity ].
      * split; [ | discriminate ].
        intros results [= <-] H.
        apply (f_equal (@List.length dict)) in H.
        rewrite <- (Permutation_length (insert_perm d (Rank.sort l))) in H.
        discriminate H.
    + split; [ discriminate | discriminate ].
Qed.

(** ** A model that cannot be reached *)

Lemma blank_answer_parses :
  Json.loads (App.clean "{}") = Ok (PDict [])
  /\ Json.loads (Streamlit.clean_ai_json "{}") = Ok (PDict []).
Proof. split; vm_compute; reflexivity. Qed.

Lemma streamlit_blank_backfill (name : string) :
  Streamlit.backfill (PDict []) name = Ok (Obs.streamlit_blank_record name).
Proof. reflexivity. Qed.

(** When the request to the model fails, [app.py] goes on with the answer
    "{}": the file gets a record with its file name as name and the score 0,
    and the batch continues. *)
Theorem app_failed_request_record
        (PdfReader : list Byte.byte -> result (list (result (option string))))
        (generate_content : nat -> string -> string -> result string)
        (i : nat) (jd : string) (file : App.upload) (e : exn) :
  App.accepts PdfReader file = true ->
  generate_content i (App.text_of PdfReader file) jd = Raise e ->
  outcome (App.process PdfReader generate_content Json.loads i jd file)
  = Ok (Some (Obs.app_blank_record (App.filename file))).
Proof.
  intros Ha He. rewrite app_process_outcome, Ha, He.
  now rewrite (proj1 blank_answer_parses).
Qed.

Lemma app_failed_request_witness :
  outcome (App.process (Example.pages ["Python developer"]) Obs.unreachable
             Json.loads 0 "jd" (Example.pdf "cv.pdf"))
  = Ok (Some (Obs.app_blank_record "cv.pdf")).
Proof.
  exact (app_failed_request_record (Example.pages ["Python developer"])
           Obs.unreachable 0 "jd" (Example.pdf "cv.pdf")
           (OtherError "connection refused") eq_refl eq_refl).
Defined.

(** So does [streamlit.py], when the request fails and when no API key is
    set: the file gets a record with all eight fields, the file name as
    name, the score 0 and the neutral defaults. *)
Theorem streamlit_failed_request_record
        (PdfReader : list Byte.byte -> result (list (result (option string))))
        (Document : list Byte.byte -> result (list string))
        (decode_ignore : list Byte.byte -> string)
        (API_KEY : option string)
        (generate_content : nat -> string -> string -> result string)
        (i : nat) (jd : string) (u : Streamlit.uploaded) :
  Streamlit.accepts PdfReader Document decode_ignore u = true ->
  API_KEY = None \/ API_KEY = Some EmptyString
  \/ (exists e,
         generate_content i
           (Streamlit.text_of PdfReader Document decode_ignore u) jd
         = Raise e) ->
  outcome (Streamlit.process PdfReader Document decode_ignore API_KEY
             generate_content Json.loads i jd u)
  = Ok (Some (Obs.streamlit_blank_record (Streamlit.name u))).
Proof.
  intros Ha H. rewrite streamlit_process_outcome, Ha.
  assert (E : match API_KEY with
              | None | Some EmptyString => "{}"
              | Some _ =>
                  match generate_content i
                          (Streamlit.text_of PdfReader Document
                             decode_ignore u) jd with
                  | Ok s => s
                  | Raise _ => "{}"
                  end
              end = "{}").
  { destruct H as [-> | [-> | [e He]]]; [ reflexivity | reflexivity | ].
    rewrite He. now destruct API_KEY as [[ | c k] | ]. }
  rewrite E, (proj2 blank_answer_parses). now rewrite streamlit_blank_backfill.
Qed.

Lemma streamlit_failed_request_witness :
  outcome (Streamlit.process (Example.pages ["Python developer"])
             Example.no_docx Example.no_txt None Obs.unreachable Json.loads
             0 "jd" (Example.up "cv.pdf"))
  = Ok (Some (Obs.streamlit_blank_record "cv.pdf")).
Proof.
  refine (streamlit_failed_request_record (Example.pages ["Python developer"])
            Example.no_docx Example.no_txt None Obs.unreachable 0 "jd"
            (Example.up "cv.pdf") eq_refl _).
  now left.
Defined.

(** ** The calls a batch makes *)

Lemma asks_app (a b : list event) :
  Obs.asks (a ++ b) = Obs.asks a + Obs.asks b.
Proof. unfold Obs.asks. now rewrite filter_app, length_app. Qed.

Lemma extracts_app (a b : list event) :
  Obs.extracts (a ++ b) = Obs.extracts a + Obs.extracts b.
Proof. unfold Obs.extracts. now rewrite filter_app, length_app. Qed.

Section AppCalls.

Variable PdfReader : list Byte.byte -> result (list (result (option string))).
Variable generate_content : nat -> string -> string -> result string.
Variable json_loads : string -> result pyval.

(** One file: the reader runs if the file has a name, and the model is
    asked if the file is accepted, whatever the answer turns out to be. *)
Lemma app_process_calls (i : nat) (jd : string) (file : App.upload) :
  Obs.asks (trace (App.process PdfReader generate_content json_loads
                     i jd file))
  = (if App.accepts PdfReader file then 1 else 0)
  /\ Obs.extracts (trace (App.process PdfReader generate_content json_loads
                            i jd file))
     = (if Obs.named file then 1 else 0).
Proof.
  unfold App.process, App.accepts, Obs.named, App.text_of,
    App.extract_text_from_pdf, App.get_gemini_response.
  destruct (String.eqb (App.filename file) EmptyString); [ now split | ].
  destruct (App.read_pdf PdfReader (App.stream file)) as [text | e]; cbn.
  - destruct (String.eqb text EmptyString); cbn; [ now split | ].
    destruct (generate_content i text jd) as [s | e]; cbn;
      (destruct (json_loads _) as [v | []]; cbn; try (now split);
       destruct (App.standardize v (App.filename file)); now split).
  - now split.
Qed.

Lemma app_loop_calls (jd : string) (files : list App.upload) :
  forall (i : nat) (acc : list dict),
    Obs.asks (trace (App.loop PdfReader generate_content json_loads
                       i jd files acc))
    <= List.length (filter (App.accepts PdfReader) files)
    /\ Obs.extracts (trace (App.loop PdfReader generate_content json_loads
                              i jd files acc))
       <= List.length (filter Obs.named files)
    /\ forall results,
         outcome (App.loop PdfReader generate_content json_loads
                    i jd files acc) = Ok results ->
         Obs.asks (trace (App.loop PdfReader generate_content json_loads
                            i jd files acc))
         = List.length (filter (App.accepts PdfReader) files)
         /\ Obs.extracts (trace (App.loop PdfReader generate_content
                                   json_loads i jd files acc))
            = List.length (filter Obs.named files).
Proof.
  induction files as [ | file rest IH]; intros i acc.
  - cbn. repeat split; lia.
  - cbn [App.loop filter]. rewrite trace_bind, outcome_bind.
    destruct (app_process_calls i jd file) as [Ha He].
    destruct (outcome (App.process PdfReader generate_content json_loads
                         i jd file)) as [r | e].
    + rewrite asks_app, extracts_app, Ha, He.
      match goal with
      | |- context [App.loop _ _ _ (S i) jd rest ?a] =>
          destruct (IH (S i) a) as [I1 [I2 I3]]
      end.
      destruct (App.accepts PdfReader file), (Obs.named file);
        cbn [List.length]; (split; [ lia | split; [ lia | ] ]);
        intros results H; destruct (I3 results H); lia.
    + rewrite Ha, He.
      destruct (App.accepts PdfReader file), (Obs.named file);
        cbn [List.length]; (split; [ lia | split; [ lia | discriminate ] ]).
Qed.

End AppCalls.

(** [analyze] runs the reader at most once for each file with a name and
    asks the model at most once for each file it accepts, and never for a
    file it skips; when it answers with results, each record cost exactly
    one call to the model. *)
Theorem app_calls_per_file
        (PdfReader : list Byte.byte -> result (list (result (option string))))
        (generate_content : nat -> string -> string -> result string)
        (json_loads : string -> result pyval)
        (jd : option string) (files : list App.upload) :
  Obs.asks (trace (App.analyze PdfReader generate_content json_loads jd files))
  <= List.length (filter (App.accepts PdfReader) files)
  /\ Obs.extracts (trace (App.analyze PdfReader generate_content json_loads
                            jd files))
     <= List.length (filter Obs.named files)
  /\ forall results,
       outcome (App.analyze PdfReader generate_content json_loads jd files)
       = Ok (App.Json200 results) ->
       Obs.asks (trace (App.analyze PdfReader generate_content json_loads
                          jd files))
       = List.length results.
Proof.
  unfold App.analyze.
  destruct jd as [[ | c jd] | ];
    [ cbn; repeat split; try lia; discriminate | | cbn; repeat split;
      try lia; discriminate ].
  destruct files as [ | file rest];
    [ cbn; repeat split; try lia; discriminate | ].
  destruct (app_loop_calls PdfReader generate_content json_loads
              (String c jd) (file :: rest) 0 []) as [I1 [I2 I3]].
  pose proof (app_loop_yields PdfReader generate_content json_loads
                (String c jd) (file :: rest) 0 []) as Y.
  destruct (App.loop PdfReader generate_content json_loads 0 (String c jd)
              (file :: rest) []) as [t [rs | e]]; cbn -[filter] in *.
  - rewrite app_nil_r. split; [ exact I1 | split; [ exact I2 | ] ].
    intros results [= <-].
    destruct (I3 rs eq_refl) as [-> _].
    destruct (Y rs eq_refl) as [-> L]. rewrite <- L.
    apply Permutation_length, sort_perm.
  - rewrite asks_app, extracts_app. cbn. rewrite !Nat.add_0_r.
    split; [ exact I1 | split; [ exact I2 | discriminate ] ].
Qed.

Section StreamlitCalls.

Variable PdfReader : list Byte.byte -> result (list (result (option string))).
Variable Document : list Byte.byte -> result (list string).
Variable decode_ignore : list Byte.byte -> string.
Variable API_KEY : option string.
Variable generate_content : nat -> string -> string -> result string.
Variable json_loads : string -> result pyval.

#[local] Abbreviation process' :=
  (Streamlit.process PdfReader Document decode_ignore API_KEY
                     generate_content json_loads).
#[local] Abbreviation loop' :=
  (Streamlit.loop PdfReader Document decode_ignore API_KEY
                  generate_content json_loads).
#[local] Abbreviation accepts' :=
  (Streamlit.accepts PdfReader Document decode_ignore).

Ltac answer :=
  cbn -[Streamlit.blank];
  repeat match goal with
         | |- context [Streamlit.blank ?t] =>
             destruct (Streamlit.blank t); cbn -[Streamlit.blank]
         end;
  try (split; reflexivity);
  destruct API_KEY as [[ | ? ?] | ]; cbn -[Streamlit.blank];
  repeat match goal with
         | |- context [generate_content ?i ?t ?j] =>
             destruct (generate_content i t j); cbn -[Streamlit.blank]
         | |- context [json_loads ?s] =>
             destruct (json_loads s) as [? | []]; cbn -[Streamlit.blank]
         | |- context [Streamlit.backfill ?v ?n] =>
             destruct (Streamlit.backfill v n); cbn -[Streamlit.blank]
         end;
  split; reflexivity.

(** One file: a reader runs if the file is small enough and of a known
    type, and the model is asked if the file is accepted and a key is set. *)
Lemma streamlit_process_calls (i : nat) (jd : string) (u : Streamlit.uploaded) :
  Obs.asks (trace (process' i jd u))
  = (if accepts' u && Obs.has_key API_KEY then 1 else 0)
  /\ Obs.extracts (trace (process' i jd u)) = (if Obs.read u then 1 else 0).
Proof.
  unfold Streamlit.process, Streamlit.accepts, Obs.read, Streamlit.text_of,
    Streamlit.supported, Streamlit.extract,
    Streamlit.extract_text_from_pdf_bytes,
    Streamlit.extract_text_from_docx_bytes,
    Streamlit.extract_text_from_txt_bytes, Streamlit.reported.
  rewrite N.leb_antisym.
  destruct (Streamlit.max_size <? Streamlit.size u)%N; [ now split | ].
  destruct (Str.endswith _ ".pdf").
  { destruct (App.read_pdf PdfReader (Streamlit.data u)); answer. }
  destruct (Str.endswith _ ".docx").
  { destruct (Streamlit.read_docx Document (Streamlit.data u)); answer. }
  destruct (Str.endswith _ ".txt").
  { answer. }
  destruct (Str.endswith _ ".doc"); [ | now split ].
  destruct (Streamlit.read_docx Document (Streamlit.data u)) as [[ | c t] | e];
    answer.
Qed.

Lemma streamlit_loop_calls (jd : string) (files : list Streamlit.uploaded) :
  forall (i : nat) (acc : list dict),
    Obs.asks (trace (loop' i jd files acc))
    <= (if Obs.has_key API_KEY
        then List.length (filter accepts' files) else 0)
    /\ Obs.extracts (trace (loop' i jd files acc))
       <= List.length (filter Obs.read files)
    /\ forall results,
         outcome (loop' i jd files acc) = Ok results ->
         Obs.asks (trace (loop' i jd files acc))
         = (if Obs.has_key API_KEY
            then List.length (filter accepts' files) else 0).
Proof.
  induction files as [ | u rest IH]; intros i acc.
  - cbn. destruct (Obs.has_key API_KEY); repeat split; lia.
  - cbn [Streamlit.loop filter]. rewrite trace_bind, outcome_bind.
    destruct (streamlit_process_calls i jd u) as [Ha He].
    destruct (outcome (process' i jd u)) as [r | e].
    + rewrite asks_app, extracts_app, Ha, He.
      match goal with
      | |- context [Streamlit.loop _ _ _ _ _ _ (S i) jd rest ?a] =>
          destruct (IH (S i) a) as [I1 [I2 I3]]
      end.
      destruct (accepts' u), (Obs.read u), (Obs.has_key API_KEY);
        cbn [List.length andb]; (split; [ lia | split; [ lia | ] ]);
        intros results H; specialize (I3 results H); lia.
    + rewrite Ha, He.
      destruct (accepts' u), (Obs.read u), (Obs.has_key API_KEY);
        cbn [List.length andb];
        (split; [ lia | split; [ lia | discriminate ] ]).
Qed.

End StreamlitCalls.

Lemma streamlit_run_of_loop
      (PdfReader : list Byte.byte -> result (list (result (option string))))
      (Document : list Byte.byte -> result (list string))
      (decode_ignore : list Byte.byte -> string)
      (API_KEY : option string)
      (generate_content : nat -> string -> string -> result string)
      (json_loads : string -> result pyval)
      (jd : string) (u : Streamlit.uploaded) (rest : list Streamlit.uploaded) :
  Obs.asks (trace (Streamlit.run PdfReader Document decode_ignore API_KEY
                     generate_content json_loads jd (u :: rest)))
  = Obs.asks (trace (Streamlit.loop PdfReader Document decode_ignore API_KEY
                       generate_content json_loads 0 jd (u :: rest) []))
  /\ Obs.extracts (trace (Streamlit.run PdfReader Document decode_ignore
                            API_KEY generate_content json_loads jd (u :: rest)))
     = Obs.extracts (trace (Streamlit.loop PdfReader Document decode_ignore
                              API_KEY generate_content json_loads 0 jd
                              (u :: rest) []))
  /\ forall results,
       outcome (Streamlit.run PdfReader Document decode_ignore API_KEY
                  generate_content json_loads jd (u :: rest))
       = Ok (Streamlit.Ranking results) ->
       exists rs,
         outcome (Streamlit.loop PdfReader Document decode_ignore API_KEY
                    generate_content json_loads 0 jd (u :: rest) []) = Ok rs
         /\ List.length results = List.length rs.
Proof.
  unfold Streamlit.run, Streamlit.rank_all.
  destruct (Streamlit.loop PdfReader Document decode_ignore API_KEY
              generate_content json_loads 0 jd (u :: rest) [])
    as [t [rs | e]];
    destruct (Streamlit.blank jd); try destruct rs as [ | d l];
    cbn [bind emit ret trace outcome fst snd app];
    unfold Obs.asks, Obs.extracts;
    cbn [filter Obs.is_ask Obs.is_extract];
    rewrite ?filter_app, ?length_app;
    cbn [filter Obs.is_ask Obs.is_extract List.length];
    rewrite ?Nat.add_0_r;
    (split; [ reflexivity | split; [ reflexivity | ] ]);
    try (intros results H; discriminate H);
    intros results [= <-]; eexists; (split; [ reflexivity | ]);
    symmetry; apply (Permutation_length (sort_perm (d :: l))).
Qed.

(** The Streamlit page runs a reader at most once for each file of at most
    10 MiB with a known extension, and asks the model at most once for each
    file it accepts; without an API key it never asks; and a ranking it
    shows cost exactly one call to the model for each record. *)
Theorem streamlit_calls_per_file
        (PdfReader : list Byte.byte -> result (list (result (option string))))
        (Document : list Byte.byte -> result (list string))
        (decode_ignore : list Byte.byte -> string)
        (API_KEY : option string)
        (generate_content : nat -> string -> string -> result string)
        (json_loads : string -> result pyval)
        (jd : string) (files : list Streamlit.uploaded) :
  Obs.asks (trace (Streamlit.run PdfReader Document decode_ignore API_KEY
                     generate_content json_loads jd files))
  <= (if Obs.has_key API_KEY
      then List.length
             (filter (Streamlit.accepts PdfReader Document decode_ignore) files)
      else 0)
  /\ Obs.extracts (trace (Streamlit.run PdfReader Document decode_ignore
                            API_KEY generate_content json_loads jd files))
     <= List.length (filter Obs.read files)
  /\ forall results,
       Obs.has_key API_KEY = true ->
       outcome (Streamlit.run PdfReader Document decode_ignore API_KEY
                  generate_content json_loads jd files)
       = Ok (Streamlit.Ranking results) ->
       Obs.asks (trace (Streamlit.run PdfReader Document decode_ignore API_KEY
                          generate_content json_loads jd files))
       = List.length results.
Proof.
  destruct files as [ | u rest].
  - cbn. destruct (Obs.has_key API_KEY); repeat split; try lia; discriminate.
  - destruct (streamlit_run_of_loop PdfReader Document decode_ignore API_KEY
                generate_content json_loads jd u rest) as [-> [-> R]].
    destruct (streamlit_loop_calls PdfReader Document decode_ignore API_KEY
                generate_content json_loads jd (u :: rest) 0 [])
      as [I1 [I2 I3]].
    split; [ exact I1 | split; [ exact I2 | ] ].
    intros results K H. destruct (R results H) as [rs [E L]].
    rewrite (I3 rs E), K, L.
    apply streamlit_loop_yields in E. destruct E as [-> E]. now rewrite <- E.
Qed.

(** ** Cleaning the answer *)

Lemma append_empty (s : string) : s ++ EmptyString = s.
Proof. induction s as [ | c r IH]; simpl; [ reflexivity | now rewrite IH ]. Qed.

Lemma startswith_own (p s : string) : Str.startswith (p ++ s) p = true.
Proof.
  induction p as [ | c p IH]; [ now destruct s | ].
  simpl. now rewrite Ascii.eqb_refl, IH.
Qed.

Lemma startswith_split (p : string) :
  forall s, Str.startswith s p = true -> exists rest, s = p ++ rest.
Proof.
  induction p as [ | a p IH]; intros s H; [ now exists s | ].
  destruct s as [ | b s]; [ discriminate H | ].
  simpl in H. apply andb_true_iff in H. destruct H as [Hab Hs].
  apply Ascii.eqb_eq in Hab. subst b.
  destruct (IH s Hs) as [rest ->]. now exists rest.
Qed.

Lemma replace_from_skip (old new t s : string) :
  Str.replace_from old new (String.length t) (t ++ s)
  = Str.replace_from old new 0 s.
Proof. induction t as [ | c t IH]; simpl; [ reflexivity | exact IH ]. Qed.

(** The two equations of [replace]. *)
Lemma replace_match (c : ascii) (o new s : string) :
  Str.replace (String c o) new (String c o ++ s)
  = new ++ Str.replace (String c o) new s.
Proof.
  unfold Str.replace.
  change (String c o ++ s) with (String c (o ++ s)).
  cbn [Str.replace_from].
  change (String c (o ++ s)) with (String c o ++ s).
  rewrite startswith_own. cbn [String.length]. rewrite Nat.sub_1_r.
  cbn [Nat.pred]. now rewrite replace_from_skip.
Qed.

Lemma replace_step (c : ascii) (r old new : string) :
  Str.startswith (String c r) old = false ->
  Str.replace old new (String c r) = String c (Str.replace old new r).
Proof. intros H. unfold Str.replace. cbn [Str.replace_from]. now rewrite H. Qed.

Lemma replace_app_absent (a : ascii) (o new s t : string) :
  Py.has_char a s = false ->
  Str.replace (String a o) new (s ++ t)
  = s ++ Str.replace (String a o) new t.
Proof.
  induction s as [ | c r IH]; intros H; [ reflexivity | ].
  simpl in H. apply orb_false_iff in H. destruct H as [Hc Hr].
  change (String c r ++ t) with (String c (r ++ t)).
  rewrite replace_step; [ now rewrite IH | ].
  cbn [Str.startswith]. now rewrite Ascii.eqb_sym, Hc.
Qed.

Lemma replace_absent (a : ascii) (o new s : string) :
  Py.has_char a s = false -> Str.replace (String a o) new s = s.
Proof.
  intros H. rewrite <- (append_empty s) at 1.
  rewrite replace_app_absent by exact H. apply append_empty.
Qed.

Lemma from_first_open_skips (pre x : string) :
  Py.has_char "{" pre = false ->
  Re.from_first_open (pre ++ String "{" x) = Some (String "{" x).
Proof.
  induction pre as [ | c r IH]; intros H; [ reflexivity | ].
  simpl in H. apply orb_false_iff in H. destruct H as [Hc Hr].
  simpl. now rewrite Hc, IH.
Qed.

Lemma upto_last_close_none (post : string) :
  Py.has_char "}" post = false -> Re.upto_last_close post = None.
Proof.
  induction post as [ | c r IH]; intros H; [ reflexivity | ].
  simpl in H. apply orb_false_iff in H. destruct H as [Hc Hr].
  simpl. now rewrite IH, Hc.
Qed.

Lemma upto_last_close_stops (a post : string) :
  Py.has_char "}" post = false ->
  Re.upto_last_close (a ++ String "}" post) = Some (a ++ "}").
Proof.
  intros H. induction a as [ | c r IH].
  - simpl. now rewrite upto_last_close_none.
  - simpl. now rewrite IH.
Qed.

(** [streamlit.py] cleans as [app.py] does, but for the empty answer. *)
Lemma streamlit_clean_is_app_clean (s : string) :
  s <> EmptyString -> Streamlit.clean_ai_json s = App.clean s.
Proof. destruct s; [ now intros N | reflexivity ]. Qed.

(** Text before and after the object is dropped: of an answer without
    backquotes, with no opening brace before the object and no closing
    brace after it, cleaning keeps the object and nothing else. *)
Theorem clean_drops_commentary (pre inner post : string) :
  Py.has_char "`" pre = false ->
  Py.has_char "`" inner = false ->
  Py.has_char "`" post = false ->
  Py.has_char "{" pre = false ->
  Py.has_char "}" post = false ->
  App.clean (pre ++ "{" ++ inner ++ "}" ++ post) = "{" ++ inner ++ "}"
  /\ Streamlit.clean_ai_json (pre ++ "{" ++ inner ++ "}" ++ post)
     = "{" ++ inner ++ "}".
Proof.
  intros B1 B2 B3 Ho Hc.
  assert (E : App.clean (pre ++ "{" ++ inner ++ "}" ++ post)
              = "{" ++ inner ++ "}").
  { unfold App.clean.
    assert (B : Py.has_char "`" (pre ++ "{" ++ inner ++ "}" ++ post) = false).
    { rewrite !has_char_app, B1, B2, B3. reflexivity. }
    rewrite (replace_absent "`" "``json") by exact B.
    rewrite (replace_absent "`" "``") by exact B.
    unfold Re.search_braces.
    change ("{" ++ inner ++ "}" ++ post)
      with (String "{" (inner ++ String "}" post)).
    rewrite from_first_open_skips by exact Ho.
    change (String "{" (inner ++ String "}" post))
      with (("{" ++ inner) ++ String "}" post).
    now rewrite upto_last_close_stops. }
  split; [ exact E | ].
  rewrite streamlit_clean_is_app_clean; [ exact E | ].
  now destruct pre.
Qed.

Lemma clean_drops_commentary_witness :
  App.clean (Str.q "Here is the verdict: {`Name`: `Ann`} Hope this helps!")
  = Str.q "{`Name`: `Ann`}".
Proof.
  exact (proj1 (clean_drops_commentary "Here is the verdict: "
                  (Str.q "`Name`: `Ann`") " Hope this helps!"
                  eq_refl eq_refl eq_refl eq_refl eq_refl)).
Defined.

Lemma no_backquote_head (c : ascii) (r : string) :
  Py.has_char "`" (String c r) = false -> Ascii.eqb "`" c = false.
Proof.
  cbn [Py.has_char]. intros H. apply orb_false_iff in H.
  destruct H as [H _]. now rewrite Ascii.eqb_sym.
Qed.

Lemma json_not_across_fence (body : string) :
  Str.startswith body "json" = false ->
  Str.startswith (body ++ "```") "json" = false.
Proof.
  intros H.
  destruct body as [ | c1 [ | c2 [ | c3 [ | c4 r]]]];
    cbn [append Str.startswith] in H |- *;
    try reflexivity;
    [ | | | replace (Str.startswith (r ++ "```") EmptyString) with true
            by (now destruct r);
          replace (Str.startswith r EmptyString) with true in H
            by (now destruct r);
          exact H ];
    repeat match goal with
           | |- context [Ascii.eqb ?a ?b] =>
               is_var b; destruct (Ascii.eqb a b)
           end; reflexivity.
Qed.

Lemma unfence (body : string) :
  Py.has_char "`" body = false ->
  Str.replace "```" EmptyString
    (Str.replace "```json" EmptyString body) = body.
Proof.
  intros B.
  rewrite (replace_absent "`" "``json") by exact B.
  now rewrite (replace_absent "`" "``") by exact B.
Qed.

Lemma unfence_json (body : string) :
  Py.has_char "`" body = false ->
  Str.replace "```" EmptyString
    (Str.replace "```json" EmptyString ("```json" ++ body ++ "```")) = body.
Proof.
  intros B.
  rewrite (replace_match "`" "``json").
  rewrite (replace_app_absent "`" "``json") by exact B.
  change (Str.replace "```json" EmptyString "```") with "```".
  change (EmptyString ++ body ++ "```") with (body ++ "```").
  rewrite (replace_app_absent "`" "``") by exact B.
  change (Str.replace "```" EmptyString "```") with EmptyString.
  apply append_empty.
Qed.

Lemma unfence_bare (body : string) :
  Py.has_char "`" body = false ->
  Str.startswith body "json" = false ->
  Str.replace "```" EmptyString
    (Str.replace "```json" EmptyString ("```" ++ body ++ "```")) = body.
Proof.
  intros B J.
  assert (E : Str.replace "```json" EmptyString ("```" ++ body ++ "```")
              = "```" ++ body ++ "```").
  { change ("```" ++ body ++ "```")
      with (String "`" (String "`" (String "`" (body ++ "```")))).
    rewrite replace_step.
    2:{ change (Str.startswith
                  (String "`" (String "`" (String "`" (body ++ "```"))))
                  "```json")
          with (Str.startswith (body ++ "```") "json").
        now apply json_not_across_fence. }
    rewrite replace_step.
    2:{ destruct body as [ | c r]; [ reflexivity | ].
        change (Str.startswith
                  (String "`" (String "`" (String c r ++ "```"))) "```json")
          with (Ascii.eqb "`" c && Str.startswith (r ++ "```") "json").
        now rewrite (no_backquote_head c r B). }
    rewrite replace_step.
    2:{ destruct body as [ | c r]; [ reflexivity | ].
        change (Str.startswith (String "`" (String c r ++ "```")) "```json")
          with (Ascii.eqb "`" c && Str.startswith (r ++ "```") "`json").
        now rewrite (no_backquote_head c r B). }
    rewrite (replace_app_absent "`" "``json") by exact B.
    reflexivity. }
  rewrite E.
  rewrite (replace_match "`" "``").
  rewrite (replace_app_absent "`" "``") by exact B.
  change (Str.replace "```" EmptyString "```") with EmptyString.
  change (EmptyString ++ body ++ EmptyString) with (body ++ EmptyString).
  apply append_empty.
Qed.

(** A fenced answer is read as its body: with no backquote in the body,
    the Markdown fence around it ([```json] or a bare one, closed by [```])
    is removed, and what follows is the cleaning of the body alone.  A bare
    opening fence directly followed by the letters json is the first case. *)
Theorem clean_strips_fences (body : string) :
  Py.has_char "`" body = false ->
  App.clean ("```json" ++ body ++ "```") = App.clean body
  /\ Streamlit.clean_ai_json ("```json" ++ body ++ "```") = App.clean body
  /\ (Str.startswith body "json" = false ->
      App.clean ("```" ++ body ++ "```") = App.clean body
      /\ Streamlit.clean_ai_json ("```" ++ body ++ "```") = App.clean body).
Proof.
  intros B.
  assert (E1 : App.clean ("```json" ++ body ++ "```") = App.clean body).
  { unfold App.clean. now rewrite unfence_json, unfence. }
  split; [ exact E1 | ].
  split; [ exact E1 | ].
  intros J.
  assert (E2 : App.clean ("```" ++ body ++ "```") = App.clean body).
  { unfold App.clean. now rewrite unfence_bare, unfence. }
  split; exact E2.
Qed.

Lemma clean_strips_fences_witness :
  Py.has_char "`" (Str.q "{`Name`: `Ann`}") = false
  /\ App.clean ("```json" ++ Str.q "{`Name`: `Ann`}" ++ "```")
     = App.clean (Str.q "{`Name`: `Ann`}").
Proof.
  split; [ reflexivity | ].
  exact (proj1 (clean_strips_fences (Str.q "{`Name`: `Ann`}") eq_refl)).
Defined.

Lemma startswith_nil (s : string) : Str.startswith s EmptyString = true.
Proof. now destruct s. Qed.

Lemma append_assoc (a b c : string) : (a ++ b) ++ c = a ++ b ++ c.
Proof. induction a as [ | x a IH]; simpl; [ reflexivity | now rewrite IH ]. Qed.

Lemma startswith_longer (s p o : string) :
  Str.startswith s (p ++ o) = true -> Str.startswith s p = true.
Proof.
  intros H. apply startswith_split in H. destruct H as [rest ->].
  rewrite append_assoc. apply startswith_own.
Qed.

Lemma startswith_extend (u rest p : string) :
  Str.startswith u p = true -> Str.startswith (u ++ rest) p = true.
Proof.
  intros H. apply startswith_split in H. destruct H as [t ->].
  rewrite append_assoc. apply startswith_own.
Qed.

(** What is left of a replacement starts with a backquote only if the
    text did. *)
Lemma replace_head_backquote (o new r : string) :
  new = EmptyString ->
  Str.startswith (Str.replace (String "`" o) new r) "`" = true ->
  Str.startswith r "`" = true.
Proof.
  intros -> H. destruct r as [ | c r']; [ discriminate H | ].
  destruct (Str.startswith (String c r') (String "`" o)) eqn:E.
  - cbn [Str.startswith] in E |- *. apply andb_true_iff in E.
    destruct E as [-> _]. now rewrite startswith_nil.
  - rewrite replace_step in H by exact E.
    cbn [Str.startswith] in H |- *. apply andb_true_iff in H.
    destruct H as [-> _]. now rewrite startswith_nil.
Qed.

Lemma replace_head_two_backquotes (r : string) :
  Str.startswith (Str.replace "```" EmptyString r) "``" = true ->
  Str.startswith r "``" = true.
Proof.
  intros H. destruct r as [ | c r']; [ discriminate H | ].
  destruct (Str.startswith (String c r') "```") eqn:E.
  - now apply (startswith_longer _ "``" "`").
  - rewrite replace_step in H by exact E.
    cbn [Str.startswith] in H |- *. apply andb_true_iff in H.
    destruct H as [-> H]. cbn [andb].
    now apply (replace_head_backquote "``" EmptyString).
Qed.

Lemma replace_leaves_no_fence (n : nat) :
  forall t, (String.length t <= n)%nat ->
            Obs.has_fence (Str.replace "```" EmptyString t) = false.
Proof.
  induction n as [ | n IH]; intros t Hn.
  - destruct t; [ reflexivity | simpl in Hn; lia ].
  - destruct t as [ | c r]; [ reflexivity | ].
    destruct (Str.startswith (String c r) "```") eqn:E.
    + destruct (startswith_split _ _ E) as [rest Hr]. rewrite Hr.
      rewrite (replace_match "`" "``").
      change (EmptyString ++ Str.replace "```" EmptyString rest)
        with (Str.replace "```" EmptyString rest).
      apply IH. apply (f_equal String.length) in Hr.
      simpl in Hr, Hn. lia.
    + rewrite replace_step by exact E.
      cbn [Obs.has_fence]. rewrite IH by (simpl in Hn; lia).
      rewrite orb_false_r.
      cbn [Str.startswith] in E |- *.
      destruct (Ascii.eqb "`" c); [ | reflexivity ].
      cbn [andb] in E |- *.
      destruct (Str.startswith (Str.replace "```" EmptyString r) "``") eqn:F;
        [ | reflexivity ].
      apply replace_head_two_backquotes in F. congruence.
Qed.

Lemma no_fence_replace (o new s : string) :
  Obs.has_fence s = false -> Str.replace ("```" ++ o) new s = s.
Proof.
  induction s as [ | c r IH]; intros H; [ reflexivity | ].
  cbn [Obs.has_fence] in H. apply orb_false_iff in H. destruct H as [Hh Hr].
  change ("```" ++ o) with (String "`" (String "`" (String "`" o))) in *.
  rewrite replace_step; [ now rewrite IH | ].
  destruct (Str.startswith (String c r)
              (String "`" (String "`" (String "`" o)))) eqn:E;
    [ | reflexivity ].
  apply (startswith_longer _ "```" o) in E. congruence.
Qed.

Lemma no_fence_prefix (u rest : string) :
  Obs.has_fence (u ++ rest) = false -> Obs.has_fence u = false.
Proof.
  induction u as [ | c u IH]; intros H; [ reflexivity | ].
  change (String c u ++ rest) with (String c (u ++ rest)) in H.
  cbn [Obs.has_fence] in H |- *.
  apply orb_false_iff in H. destruct H as [Hh Hr].
  rewrite (IH Hr), orb_false_r.
  destruct (Str.startswith (String c u) "```") eqn:E; [ | reflexivity ].
  apply (startswith_extend _ rest) in E.
  change (String c u ++ rest) with (String c (u ++ rest)) in E. congruence.
Qed.

Lemma from_first_open_suffix (s : string) :
  forall u, Re.from_first_open s = Some u ->
            (exists r, u = String "{" r)
            /\ (Obs.has_fence s = false -> Obs.has_fence u = false).
Proof.
  induction s as [ | c r IH]; intros u H; [ discriminate H | ].
  cbn [Re.from_first_open] in H.
  destruct (Ascii.eqb c "{") eqn:E.
  - injection H as <-. apply Ascii.eqb_eq in E. subst c.
    split; [ now exists r | trivial ].
  - destruct (IH u H) as [Hu Hf]. split; [ exact Hu | ].
    intros F. cbn [Obs.has_fence] in F. apply orb_false_iff in F.
    now apply Hf.
Qed.

Lemma upto_last_close_prefix (s : string) :
  forall u, Re.upto_last_close s = Some u ->
            (exists rest, s = u ++ rest)
            /\ Re.upto_last_close u = Some u
            /\ match s with
               | EmptyString => True
               | String c _ => exists t, u = String c t
               end.
Proof.
  induction s as [ | c r IH]; intros u H; [ discriminate H | ].
  cbn [Re.upto_last_close] in H.
  destruct (Re.upto_last_close r) as [t | ] eqn:E.
  - injection H as <-. destruct (IH t eq_refl) as [[rest ->] [I _]].
    split; [ now exists rest | ].
    split; [ | now exists t ].
    cbn [Re.upto_last_close]. now rewrite I.
  - destruct (Ascii.eqb c "}") eqn:C; [ | discriminate H ].
    injection H as <-.
    split; [ now exists r | ].
    split; [ | now exists EmptyString ].
    cbn [Re.upto_last_close]. now rewrite C.
Qed.

Lemma clean_no_fence (s : string) : Obs.has_fence (App.clean s) = false.
Proof.
  unfold App.clean.
  set (x := Str.replace "```" EmptyString _).
  assert (F : Obs.has_fence x = false)
    by (apply (replace_leaves_no_fence _ _ (le_n _))).
  unfold Re.search_braces.
  destruct (Re.from_first_open x) as [t | ] eqn:O; [ | exact F ].
  destruct (from_first_open_suffix _ _ O) as [_ Ft].
  destruct (Re.upto_last_close t) as [g | ] eqn:C; [ | exact F ].
  destruct (upto_last_close_prefix _ _ C) as [[rest ->] _].
  now apply (no_fence_prefix g rest), Ft.
Qed.

Lemma clean_fixed (x : string) :
  Obs.has_fence x = false ->
  match Re.search_braces x with Some g => g | None => x end = x ->
  App.clean x = x.
Proof.
  intros F E. unfold App.clean.
  rewrite (no_fence_replace "json") by exact F.
  rewrite (no_fence_replace EmptyString) by exact F.
  exact E.
Qed.

(** The cleaned answer holds no code fence, in either front end. *)
Theorem cleaned_answer_has_no_fence (s : string) :
  Obs.has_fence (App.clean s) = false
  /\ Obs.has_fence (Streamlit.clean_ai_json s) = false.
Proof.
  split; [ apply clean_no_fence | ].
  destruct s; [ reflexivity | apply clean_no_fence ].
Qed.

(** Cleaning is idempotent in [app.py]: a cleaned answer is cleaned to
    itself.  In [streamlit.py] it is so too, but for an answer that is
    cleaned to the empty string, which a second cleaning turns into an
    empty object. *)
Theorem clean_idempotent (s : string) :
  App.clean (App.clean s) = App.clean s
  /\ Streamlit.clean_ai_json (Streamlit.clean_ai_json s)
     = match Streamlit.clean_ai_json s with
       | EmptyString => "{}"
       | cleaned => cleaned
       end.
Proof.
  assert (A : forall s, App.clean (App.clean s) = App.clean s).
  { clear s. intros s. apply clean_fixed; [ apply clean_no_fence | ].
    unfold App.clean.
    set (x := Str.replace "```" EmptyString _).
    destruct (Re.search_braces x) as [g | ] eqn:S; [ | now rewrite S ].
    unfold Re.search_braces in S.
    destruct (Re.from_first_open x) as [t | ] eqn:O; [ | discriminate S ].
    destruct (from_first_open_suffix _ _ O) as [[r ->] _].
    destruct (upto_last_close_prefix _ _ S) as [_ [I [g' ->]]].
    unfold Re.search_braces. cbn [Re.from_first_open].
    rewrite Ascii.eqb_refl. now rewrite I. }
  split; [ apply A | ].
  destruct s as [ | c r]; [ reflexivity | ].
  rewrite (streamlit_clean_is_app_clean (String c r)) by discriminate.
  destruct (App.clean (String c r)) as [ | c' r'] eqn:E; [ reflexivity | ].
  rewrite streamlit_clean_is_app_clean by discriminate.
  rewrite <- E. apply A.
Qed.

(** ** The text of a PDF *)

Lemma concat_pages_all (pages : list (result (option string))) :
  forall text,
    match App.concat_pages pages text with
    | Ok t =>
        forallb Obs.page_ok pages = true
        /\ t = text ++ Obs.concat (map Obs.page_text pages)
    | Raise _ => forallb Obs.page_ok pages = false
    end.
Proof.
  induction pages as [ | p r IH]; intros text.
  - simpl. now rewrite append_empty.
  - destruct p as [[t | ] | e]; [ | | reflexivity ].
    + cbn [App.concat_pages forallb Obs.page_ok andb map Obs.page_text
             Obs.concat].
      specialize (IH (text ++ t)).
      destruct (App.concat_pages r (text ++ t)); [ | exact IH ].
      destruct IH as [H ->]. now rewrite append_assoc.
    + cbn [App.concat_pages forallb Obs.page_ok andb map Obs.page_text
             Obs.concat].
      specialize (IH (text ++ EmptyString)).
      destruct (App.concat_pages r (text ++ EmptyString)); [ | exact IH ].
      destruct IH as [H ->]. now rewrite append_empty.
Qed.

(** The text of a PDF that the reader opens is the texts of its pages,
    one after the other with nothing between them, a page without text
    adding nothing; when one page fails, the text of every other page is
    lost with it and the file reads as empty.  Both front ends agree. *)
Theorem pdf_text_all_or_nothing
        (PdfReader : list Byte.byte -> result (list (result (option string))))
        (file : App.upload) (pages : list (result (option string))) :
  PdfReader (App.stream file) = Ok pages ->
  outcome (App.extract_text_from_pdf PdfReader file)
  = Ok (Obs.pdf_text pages)
  /\ outcome (Streamlit.extract_text_from_pdf_bytes PdfReader
                (App.stream file))
     = Ok (Obs.pdf_text pages).
Proof.
  intros H.
  assert (E : match App.read_pdf PdfReader (App.stream file) with
              | Ok t => t
              | Raise _ => EmptyString
              end = Obs.pdf_text pages).
  { unfold App.read_pdf, Obs.pdf_text. rewrite H.
    pose proof (concat_pages_all pages EmptyString) as C.
    destruct (App.concat_pages pages EmptyString) as [t | e].
    - destruct C as [-> ->]. reflexivity.
    - now rewrite C. }
  split.
  - unfold App.extract_text_from_pdf. autorewrite with run.
    rewrite <- E. now destruct (App.read_pdf PdfReader (App.stream file)).
  - unfold Streamlit.extract_text_from_pdf_bytes, Streamlit.reported.
    autorewrite with run.
    rewrite <- E. now destruct (App.read_pdf PdfReader (App.stream file)).
Qed.

Lemma pdf_text_witness :
  outcome (App.extract_text_from_pdf
             (fun _ => Ok [Ok (Some "Ann Lee. "); Ok None; Ok (Some "Python.")])
             (Example.pdf "cv.pdf"))
  = Ok "Ann Lee. Python."
  /\ outcome (App.extract_text_from_pdf
                (fun _ => Ok [Ok (Some "Ann Lee. "); Raise (OtherError "page")])
                (Example.pdf "cv.pdf"))
     = Ok EmptyString.
Proof.
  split.
  - exact (proj1 (pdf_text_all_or_nothing
                    (fun _ => Ok [Ok (Some "Ann Lee. "); Ok None;
                                  Ok (Some "Python.")])
                    (Example.pdf "cv.pdf") _ eq_refl)).
  - exact (proj1 (pdf_text_all_or_nothing
                    (fun _ => Ok [Ok (Some "Ann Lee. ");
                                  Raise (OtherError "page")])
                    (Example.pdf "cv.pdf") _ eq_refl)).
Defined.

(** ** Instances *)

Lemma app_scores_float_zero_witness :
  exists r,
    App.standardize
      (PDict [("MatchPercentage", PFloat (S754_finite false 6016527627190272 (-46)))])
      "cv.pdf" = Ok r
    /\ Dict.get "MatchPercentage" r = Some (PInt 0).
Proof.
  exact (app_scores_float_zero
           [("MatchPercentage", PFloat (S754_finite false 6016527627190272 (-46)))]
           "cv.pdf" (S754_finite false 6016527627190272 (-46)) eq_refl).
Defined.

Lemma filename_after_normalising_witness :
  Dict.get "Filename" (Obs.app_blank_record "cv.pdf") = Some (PStr "cv.pdf").
Proof.
  exact (filename_after_normalising (PDict []) "cv.pdf"
           (Obs.app_blank_record "cv.pdf") (or_introl eq_refl)).
Defined.


Lemma app_name_witness :
  Dict.get "Name" (Obs.app_blank_record "cv.pdf") = Some (PStr "cv.pdf").
Proof.
  exact (app_name [] (Obs.app_blank_record "cv.pdf") "cv.pdf" eq_refl).
Defined.

(** The answer 42, which is JSON and no object. *)
Lemma streamlit_raises_witness :
  Streamlit.accepts (Example.pages ["Python developer"]) Example.no_docx
    Example.no_txt (Example.up "cv.pdf") = true
  /\ ((Json.loads
         (Streamlit.clean_ai_json
            (Streamlit.answer (Example.pages ["Python developer"])
               Example.no_docx Example.no_txt (Some "key")
               (Example.replies ["42"]) 0 "jd" (Example.up "cv.pdf")))
       = Raise AttributeError
       /\ AttributeError <> JSONDecodeError)
      \/ (AttributeError = AttributeError
          /\ exists v,
               Json.loads
                 (Streamlit.clean_ai_json
                    (Streamlit.answer (Example.pages ["Python developer"])
                       Example.no_docx Example.no_txt (Some "key")
                       (Example.replies ["42"]) 0 "jd" (Example.up "cv.pdf")))
               = Ok v
               /\ forall d, v <> PDict d)).
Proof.
  refine (proj1 (streamlit_raises_in_loads_or_get
                   (Example.pages ["Python developer"]) Example.no_docx
                   Example.no_txt (Some "key") (Example.replies ["42"])
                   Json.loads 0 "jd" (Example.up "cv.pdf") AttributeError) _).
  vm_compute. reflexivity.
Defined.

(** An answer of 4301 digits, which [json.loads] refuses with
    [ValueError]. *)
Lemma app_raises_witness :
  outcome (App.process (Example.pages ["Python developer"])
             (Example.replies [Example.ones 4301]) Json.loads
             0 "jd" (Example.pdf "cv.pdf")) = Raise ValueError.
Proof.
  refine (proj2 (app_raises_in_loads_or_standardize
                   (Example.pages ["Python developer"])
                   (Example.replies [Example.ones 4301]) Json.loads
                   0 "jd" (Example.pdf "cv.pdf") ValueError) _).
  split; [ reflexivity | left ].
  split; [ vm_compute; reflexivity | discriminate ].
Defined.


Lemma streamlit_placeholder_witness :
  outcome (Streamlit.process (Example.pages ["Python developer"])
             Example.no_docx Example.no_txt (Some "key")
             (Example.replies ["Sorry, no verdict."]) Json.loads
             0 "jd" (Example.up "cv.pdf"))
  = Ok (Some [ ("Name", PStr "cv.pdf");
               ("MatchPercentage", PInt 0);
               ("GlobalMatch", PStr "N/A");
               ("MarketTier", PStr EmptyString);
               ("MatchedKeywords", PList []);
               ("MissingKeywords", PList []);
               ("Summary", PStr "Error parsing AI response.");
               ("Filename", PStr "cv.pdf") ]).
Proof.
  exact (streamlit_placeholder_on_bad_json
           (Example.pages ["Python developer"]) Example.no_docx Example.no_txt
           (Some "key") (Example.replies ["Sorry, no verdict."])
           Json.loads 0 "jd" (Example.up "cv.pdf") eq_refl eq_refl).
Defined.

Lemma app_analyze_ranked_witness :
  exists jd',
    Some "jd" = Some jd'
    /\ Permutation
         (App.yields (Example.pages ["Python developer"])
            (Example.replies ["{`MatchPercentage`: 40}";
                              "{`MatchPercentage`: 90}"])
            Json.loads 0 jd' (map Example.pdf ["a.pdf"; "b.pdf"]))
         [ [("MatchPercentage", PInt 90); ("Name", PStr "b.pdf");
            ("Filename", PStr "b.pdf")];
           [("MatchPercentage", PInt 40); ("Name", PStr "a.pdf");
            ("Filename", PStr "a.pdf")] ]
    /\ StronglySorted Rank.descending
         [ [("MatchPercentage", PInt 90); ("Name", PStr "b.pdf");
            ("Filename", PStr "b.pdf")];
           [("MatchPercentage", PInt 40); ("Name", PStr "a.pdf");
            ("Filename", PStr "a.pdf")] ].
Proof.
  exact (app_analyze_ranked
           (Example.pages ["Python developer"])
           (Example.replies ["{`MatchPercentage`: 40}";
                             "{`MatchPercentage`: 90}"])
           Json.loads (Some "jd") (map Example.pdf ["a.pdf"; "b.pdf"])
           _ eq_refl).
Defined.

Lemma streamlit_run_ranked_witness :
  Permutation
    (Streamlit.yields (Example.pages ["Python developer"])
       Example.no_docx Example.no_txt (Some "key")
       (Example.replies ["{`MatchPercentage`: 40}";
                         "{`MatchPercentage`: `90%`}"])
       Json.loads 0 "jd" (map Example.up ["a.pdf"; "b.pdf"]))
    [ [("MatchPercentage", PInt 90); ("Name", PStr "b.pdf");
            ("Filename", PStr "b.pdf"); ("GlobalMatch", PStr "N/A");
            ("MarketTier", PStr EmptyString); ("MatchedKeywords", PList []);
            ("MissingKeywords", PList []); ("Summary", PStr EmptyString)];
           [("MatchPercentage", PInt 40); ("Name", PStr "a.pdf");
            ("Filename", PStr "a.pdf"); ("GlobalMatch", PStr "N/A");
            ("MarketTier", PStr EmptyString); ("MatchedKeywords", PList []);
            ("MissingKeywords", PList []); ("Summary", PStr EmptyString)] ]
  /\ StronglySorted Rank.descending
       [ [("MatchPercentage", PInt 90); ("Name", PStr "b.pdf");
            ("Filename", PStr "b.pdf"); ("GlobalMatch", PStr "N/A");
            ("MarketTier", PStr EmptyString); ("MatchedKeywords", PList []);
            ("MissingKeywords", PList []); ("Summary", PStr EmptyString)];
           [("MatchPercentage", PInt 40); ("Name", PStr "a.pdf");
            ("Filename", PStr "a.pdf"); ("GlobalMatch", PStr "N/A");
            ("MarketTier", PStr EmptyString); ("MatchedKeywords", PList []);
            ("MissingKeywords", PList []); ("Summary", PStr EmptyString)] ].
Proof.
  exact (streamlit_run_ranked
           (Example.pages ["Python developer"])
           Example.no_docx Example.no_txt (Some "key")
           (Example.replies ["{`MatchPercentage`: 40}";
                             "{`MatchPercentage`: `90%`}"])
           Json.loads "jd" (map Example.up ["a.pdf"; "b.pdf"]) _ eq_refl).
Defined.
